(** * FastAPIQuickCRUD: the result interpreter and the route handlers

    A shallow embedding of [src/fastapi_quickcrud/crud_router.py]: the
    class [SQLALchemyResultParse] and the request handlers built by
    [crud_router_builder].

    The Python code mutates two request-scoped objects, the response
    header carrier and the database session, and it raises exceptions.
    Both are modelled with one state-and-exception monad over a [World]
    holding the headers and a chronological log of the calls made on the
    session, the header carrier and the schema converter. *)

From Stdlib Require Import ZArith Lia Ascii String.
From stdpp Require Import base option list strings gmap pretty.

Local Open Scope string_scope.

(** ** Data as the code sees it *)

(** Scalar column values. *)
Inductive Value : Type :=
| VNone
| VInt (z : Z)
| VStr (s : string).

(** Named attributes: an ORM entity, or the [__dict__] of a validated
    pydantic object. *)
Definition Fields : Type := list (string * Value).

(** One column of a result row: a scalar, or an ORM entity. *)
Inductive Obj : Type :=
| OVal (v : Value)
| OEntity (d : Fields).

(** A result row is a tuple with at least one column, so it is truthy and
    [row[0]] is defined. *)
Record Row : Type := mkRow { row_first : Obj; row_rest : list Obj }.

(** What [sql_execute_result] offers to the interpreter: the rows it
    iterates over and the affected-row count reported by the driver. The
    two are independent fields, as they are in SQLAlchemy. *)
Record CursorResult : Type := mkCursor { rows : list Row; rowcount : Z }.

(** [Result.scalars()]: the first column of every row. *)
Definition scalars (r : CursorResult) : list Obj := map row_first (rows r).

(** [Result.fetchall()]. *)
Definition fetchall (r : CursorResult) : list Row := rows r.

(** A single object handed to [parse_obj_as]: a column, a whole row, or the
    one-entry dict [{primary_name: i}] built by the delete kinds. *)
Inductive Item : Type :=
| ICol (o : Obj)
| IRow (r : Row)
| IKeyDict (name : string) (key : Obj).

(** The second argument of [parse_obj_as]: one object or a Python list. *)
Inductive Raw : Type :=
| ROne (i : Item)
| RMany (l : list Item).

(** A validated pydantic object. *)
Definition Entity : Type := Fields.

(** The value [parse_obj_as] returns. *)
Inductive Parsed : Type :=
| PObj (e : Entity)
| PList (l : list Entity).

(** A response model. pydantic is not part of this repository; a model is
    taken as its per-object validator, [None] standing for a
    [ValidationError]. An object model rejects a list, a list model
    ([__root__: List[...]]) rejects a non-list and validates a list
    element by element. *)
Inductive Model : Type :=
| MObj (validate : Item -> option Entity)
| MList (validate : Item -> option Entity).

Definition parse_obj_as (m : Model) (x : Raw) : option Parsed :=
  match m, x with
  | MObj v, ROne i => PObj <$> v i
  | MList v, RMany l => PList <$> mapM v l
  | _, _ => None
  end.

(** Number of entities a body represents. *)
Definition entity_count (p : Parsed) : nat :=
  match p with
  | PObj _ => 1
  | PList l => length l
  end.

(** ** Exceptions, responses, the world *)

Inductive Exn : Type :=
| IntegrityError (orig_args : list string)
| ValueError
| TypeError
| AttributeError
| AssertionError
| ValidationError
| MultipleResultsFound
| FindOneApiNotRegister (code : Z) (msg : string)
| OtherError (msg : string).

(** [http.HTTPStatus] members used by the module. *)
Module HTTPStatus.
Definition NO_CONTENT : Z := 204.
Definition CONFLICT : Z := 409.
Definition SEE_OTHER : Z := 303.
End HTTPStatus.

(** What a handler returns to FastAPI: a validated body (serialised with
    the status code declared on the route), a bare starlette
    [Response(status_code=...)] whose body is empty, or a
    [RedirectResponse]. *)
Inductive Artifact : Type :=
| ABody (p : Parsed)
| AResponse (status_code : Z)
| ARedirect (url : string) (status_code : Z).

(** The calls whose order matters, logged as they happen. *)
Inductive Event : Type :=
| EvExecute
| EvExpireAll
| EvParse (ok : bool)
| EvSetHeader (name value : string)
| EvCommit
| EvRollback.

Record World : Type := mkWorld {
  headers : gmap string string;
  events : list Event
}.

Definition fresh : World := mkWorld ∅ [].

Inductive Result (A : Type) : Type :=
| Ok (a : A)
| Raise (e : Exn).
Arguments Ok {A} a.
Arguments Raise {A} e.

Definition M (A : Type) : Type := World -> Result A * World.

Definition ret {A} (a : A) : M A := fun w => (Ok a, w).

Definition raise {A} (e : Exn) : M A := fun w => (Raise e, w).

Definition bind {A B} (m : M A) (k : A -> M B) : M B :=
  fun w =>
    match m w with
    | (Ok a, w') => k a w'
    | (Raise e, w') => (Raise e, w')
    end.

Declare Scope py_scope.
Delimit Scope py_scope with py.
Notation "'let*' x ':=' m 'in' k" := (bind m (fun x => k))
  (at level 10, x name, m at level 100, k at level 200) : py_scope.
Local Open Scope py_scope.

Definition emit (e : Event) : M unit :=
  fun w => (Ok tt, mkWorld (headers w) (events w ++ [e])).

(** [fastapi_response.headers[name] = value]. *)
Definition set_header (name value : string) : M unit :=
  fun w => (Ok tt, mkWorld (<[name := value]> (headers w))
                           (events w ++ [EvSetHeader name value])).

(** A call of [parse_obj_as], logged with its outcome. *)
Definition parse (m : Model) (x : Raw) : M Parsed :=
  match parse_obj_as m x with
  | Some p => let* _ := emit (EvParse true) in ret p
  | None => let* _ := emit (EvParse false) in raise ValidationError
  end.

(** [x, = xs]: unpacking into exactly one target. *)
Definition unpack_single {A} (xs : list A) : M A :=
  match xs with
  | [x] => ret x
  | _ => raise ValueError
  end.

(** [str(n)] for a length. *)
Definition str_nat (n : nat) : string := pretty n.

(** [str(v)] for a primary-key value. *)
Definition str_value (v : Value) : string :=
  match v with
  | VNone => "None"
  | VInt z => pretty z
  | VStr s => s
  end.

(** [d.pop(name, None)] read as a lookup: the first binding of [name]. *)
Fixpoint lookup_field (name : string) (d : Fields) : option Value :=
  match d with
  | [] => None
  | (k, v) :: d' => if bool_decide (k = name) then Some v else lookup_field name d'
  end.

(** [result.__dict__.pop(name, None)]: an object model exposes its fields, a
    list model only its [__root__]. Python's [None] covers both a missing
    key and a null value. *)
Definition pop_attribute (name : string) (p : Parsed) : option Value :=
  match p with
  | PObj e =>
      match lookup_field name e with
      | Some VNone => None
      | r => r
      end
  | PList _ => None
  end.

(** [needle in hay] on strings. *)
Fixpoint is_prefix (p s : string) : bool :=
  match p, s with
  | EmptyString, _ => true
  | String a p', String b s' => bool_decide (a = b) && is_prefix p' s'
  | String _ _, EmptyString => false
  end.

Fixpoint contains (needle hay : string) : bool :=
  is_prefix needle hay ||
  match hay with
  | EmptyString => false
  | String _ hay' => contains needle hay'
  end.

(** [s.upper()] on ASCII letters, which is what HTTP method names are. *)
Definition upper_ascii (c : ascii) : ascii :=
  let n := nat_of_ascii c in
  if (97 <=? n)%nat && (n <=? 122)%nat then ascii_of_nat (n - 32) else c.

Fixpoint upper (s : string) : string :=
  match s with
  | EmptyString => EmptyString
  | String c s' => String (upper_ascii c) (upper s')
  end.

(** ** The request and the application route table *)

Record Route : Type := mkRoute { route_path : string; route_methods : list string }.

Record Request : Type := mkRequest { url_path : string; app_routes : list Route }.

(** ** class SQLALchemyResultParse *)

Record ResultParser : Type := mkParser {
  async_mode : bool;
  primary_name : string;
  autocommit : bool
}.

Module SQLALchemyResultParse.

(** [commit]: both execution modes end in one [session.commit()]. *)
Definition commit (self : ResultParser) : M unit :=
  if autocommit self then
    (if async_mode self then emit EvCommit else emit EvCommit)
  else ret tt.

(** [Result.one_or_none()]. *)
Definition one_or_none (r : CursorResult) : M (option Row) :=
  match rows r with
  | [] => ret None
  | [row] => ret (Some row)
  | _ => raise MultipleResultsFound
  end.

Definition find_one (self : ResultParser) (response_model : Model)
    (sql_execute_result : CursorResult) : M Artifact :=
  let* one_row_data := one_or_none sql_execute_result in
  let* result :=
    match one_row_data with
    | Some row =>
        let* result := parse response_model (ROne (ICol (row_first row))) in
        let* _ := set_header "x-total-count" (str_nat 1) in
        ret (ABody result)
    | None => ret (AResponse HTTPStatus.NO_CONTENT)
    end in
  let* _ := commit self in
  ret result.

Definition find_many (self : ResultParser) (response_model : Model)
    (sql_execute_result : CursorResult) : M Artifact :=
  let result_list := scalars sql_execute_result in
  let* result := parse response_model (RMany (map ICol result_list)) in
  let* _ := set_header "x-total-count" (str_nat (length result_list)) in
  let* _ := commit self in
  ret (ABody result).

Definition update_one (self : ResultParser) (response_model : Model)
    (sql_execute_result : CursorResult) : M Artifact :=
  match rows sql_execute_result with
  | [] => ret (AResponse HTTPStatus.NO_CONTENT)
  | query_result :: _ =>
      let* _ := set_header "x-total-count" (str_nat 1) in
      let* result := parse response_model (ROne (IRow query_result)) in
      let* _ := commit self in
      ret (ABody result)
  end.

Definition update_many (self : ResultParser) (response_model : Model)
    (sql_execute_result : CursorResult) : M Artifact :=
  let result_list := rows sql_execute_result in
  match result_list with
  | [] => ret (AResponse HTTPStatus.NO_CONTENT)
  | _ :: _ =>
      let* _ := set_header "x-total-count" (str_nat (length result_list)) in
      let* result := parse response_model (RMany (map IRow result_list)) in
      let* _ := commit self in
      ret (ABody result)
  end.

Definition patch_one (self : ResultParser) (response_model : Model)
    (sql_execute_result : CursorResult) : M Artifact :=
  match rows sql_execute_result with
  | [] => ret (AResponse HTTPStatus.NO_CONTENT)
  | query_result :: _ =>
      let* _ := set_header "x-total-count" (str_nat 1) in
      let* result := parse response_model (ROne (IRow query_result)) in
      let* _ := commit self in
      ret (ABody result)
  end.

Definition patch_many (self : ResultParser) (response_model : Model)
    (sql_execute_result : CursorResult) : M Artifact :=
  let result_list := rows sql_execute_result in
  match result_list with
  | [] => ret (AResponse HTTPStatus.NO_CONTENT)
  | _ :: _ =>
      let* _ := set_header "x-total-count" (str_nat (length result_list)) in
      let* result := parse response_model (RMany (map IRow result_list)) in
      let* _ := commit self in
      ret (ABody result)
  end.

(** The handler has already unpacked the single returned row. *)
Definition upsert_one (self : ResultParser) (response_model : Model)
    (sql_execute_result : Row) : M Artifact :=
  let* result := parse response_model (ROne (IRow sql_execute_result)) in
  let* _ := set_header "x-total-count" (str_nat 1) in
  let* _ := commit self in
  ret (ABody result).

Definition upsert_many (self : ResultParser) (response_model : Model)
    (sql_execute_result : CursorResult) : M Artifact :=
  let insert_result_list := fetchall sql_execute_result in
  let* result := parse response_model (RMany (map IRow insert_result_list)) in
  let* _ := set_header "x-total-count" (str_nat (length insert_result_list)) in
  let* _ := commit self in
  ret (ABody result).

(** The list comprehension of [delete_one]: one [parse_obj_as] call per
    returned key, left to right, stopping at the first failure. *)
Fixpoint parse_each (response_model : Model) (items : list Item) : M (list Parsed) :=
  match items with
  | [] => ret []
  | i :: items' =>
      let* p := parse response_model (ROne i) in
      let* ps := parse_each response_model items' in
      ret (p :: ps)
  end.

Definition delete_one (self : ResultParser) (response_model : Model)
    (sql_execute_result : CursorResult) : M Artifact :=
  let* result :=
    if bool_decide (rowcount sql_execute_result <> 0%Z) then
      let* parsed := parse_each response_model
                       (map (IKeyDict (primary_name self)) (scalars sql_execute_result)) in
      let* result := unpack_single parsed in
      let* _ := set_header "x-total-count" (str_nat 1) in
      ret (ABody result)
    else ret (AResponse HTTPStatus.NO_CONTENT) in
  let* _ := commit self in
  ret result.

Definition delete_many (self : ResultParser) (response_model : Model)
    (sql_execute_result : CursorResult) : M Artifact :=
  let* result :=
    if bool_decide (rowcount sql_execute_result <> 0%Z) then
      let result_list := map (IKeyDict (primary_name self)) (scalars sql_execute_result) in
      let* result := parse response_model (RMany result_list) in
      let* _ := set_header "x-total-count" (str_nat (length result_list)) in
      ret (ABody result)
    else ret (AResponse HTTPStatus.NO_CONTENT) in
  let* _ := commit self in
  ret result.

(** The loop over [fastapi_request.app.routes]: every route bound to the
    end point has its method set unpacked into exactly one name. *)
Fixpoint scan_routes (redirect_end_point : string) (routes : list Route)
    (redirect_url_exist : bool) : M bool :=
  match routes with
  | [] => ret redirect_url_exist
  | route :: routes' =>
      if bool_decide (route_path route = redirect_end_point) then
        let* route_request_method := unpack_single (route_methods route) in
        scan_routes redirect_end_point routes'
          (if bool_decide (upper route_request_method = "GET") then true
           else redirect_url_exist)
      else scan_routes redirect_end_point routes' redirect_url_exist
  end.

(** The f-string of the error: [{ {self.primary_name} }] formats a
    one-element set, printed [{'name'}] for a name without quotes. *)
Definition not_registered_message (self : ResultParser) (path : string) : string :=
  "End Point " +:+ path +:+ "/" +:+ "{'" +:+ primary_name self +:+ "'}"
    +:+ " with GET method not found".

Definition post_redirect_get (self : ResultParser) (response_model : Model)
    (sql_execute_result : Row) (fastapi_request : Request) : M Artifact :=
  let* result := parse response_model (ROne (IRow sql_execute_result)) in
  match pop_attribute (primary_name self) result with
  | None => raise AssertionError
  | Some primary_key_field =>
      let redirect_url := url_path fastapi_request +:+ "/" +:+ str_value primary_key_field in
      let redirect_end_point :=
        url_path fastapi_request +:+ "/{" +:+ primary_name self +:+ "}" in
      let* redirect_url_exist :=
        scan_routes redirect_end_point (app_routes fastapi_request) false in
      if negb redirect_url_exist then
        let* _ := (if async_mode self then emit EvRollback else emit EvRollback) in
        raise (FindOneApiNotRegister 404
                 (not_registered_message self (url_path fastapi_request)))
      else
        let* _ := commit self in
        ret (ARedirect redirect_url HTTPStatus.SEE_OTHER)
  end.

End SQLALchemyResultParse.

(** ** The unit-of-work as the handlers use it *)

(** What the database answers to the statement built by the query service:
    a cursor, or a raised failure. *)
Inductive Exec : Type :=
| Executed (r : CursorResult)
| Failed (e : Exn).

(** What [session.execute(stmt)] hands back. A blocking session has run the
    statement and returns its cursor. [AsyncSession.execute] is a
    coroutine function: the call only creates the coroutine, and the
    statement runs when the coroutine is awaited. *)
Inductive Pending : Type :=
| Ready (r : CursorResult)
| Coroutine (out : Exec).

Definition run_statement (out : Exec) : M CursorResult :=
  let* _ := emit EvExecute in
  match out with
  | Executed r => ret r
  | Failed e => raise e
  end.

Definition session_execute (async : bool) (out : Exec) : M Pending :=
  if async then ret (Coroutine out)
  else let* r := run_statement out in ret (Ready r).

(** [session.expire_all()], a plain call in both modes. *)
Definition session_expire_all : M unit := emit EvExpireAll.

(** [await p]. *)
Definition await (p : Pending) : M CursorResult :=
  match p with
  | Coroutine out => run_statement out
  | Ready _ => raise TypeError
  end.

(** [p] used as a cursor without awaiting. *)
Definition as_cursor (p : Pending) : M CursorResult :=
  match p with
  | Ready r => ret r
  | Coroutine _ => raise AttributeError
  end.

(** [await p if async_mode else p]. *)
Definition await_if (async : bool) (p : Pending) : M CursorResult :=
  if async then await p else as_cursor p.

(** [try: body except IntegrityError as e: handler]. *)
Definition try_except_IntegrityError {A} (body : M A)
    (handler : Exn -> list string -> M A) : M A :=
  fun w =>
    match body w with
    | (Raise (IntegrityError orig_args), w') =>
        handler (IntegrityError orig_args) orig_args w'
    | r => r
    end.

Definition unique_marker : string :=
  "duplicate key value violates unique constraint".

(** The body of the three [except IntegrityError] blocks; [inl] is the
    early [return result]. *)
Definition conflict_guard {A} (e : Exn) (orig_args : list string)
    : M (Artifact + A) :=
  let* err_msg := unpack_single orig_args in
  if negb (contains unique_marker err_msg) then raise e
  else ret (inl (AResponse HTTPStatus.CONFLICT)).

(** ** The handlers built by crud_router_builder

    The builder hands its own [async_mode] and [autocommit] to the parser
    it creates, so one [ResultParser] value carries the configuration of
    the handlers too. *)

Inductive CrudMethods : Type :=
| FIND_ONE | FIND_MANY
| UPDATE_ONE | UPDATE_MANY
| PATCH_ONE | PATCH_MANY
| UPSERT_ONE | UPSERT_MANY
| DELETE_ONE | DELETE_MANY
| POST_REDIRECT_GET.

Module crud_router_builder.
Import SQLALchemyResultParse.

Definition get_one_by_primary_key (result_parser : ResultParser)
    (_response_model : Model) (db : Exec) : M Artifact :=
  let* p := session_execute (async_mode result_parser) db in
  let* query_result := await_if (async_mode result_parser) p in
  find_one result_parser _response_model query_result.

Definition get_many (result_parser : ResultParser)
    (_response_model : Model) (db : Exec) : M Artifact :=
  let* query_result := session_execute (async_mode result_parser) db in
  let* query_result := await_if (async_mode result_parser) query_result in
  find_many result_parser _response_model query_result.

Definition insert_one_and_support_upsert (result_parser : ResultParser)
    (_response_model : Model) (db : Exec) : M Artifact :=
  let* guarded :=
    try_except_IntegrityError
      (let* p := session_execute (async_mode result_parser) db in
       let* cursor := await_if (async_mode result_parser) p in
       let* query_result := unpack_single (rows cursor) in
       ret (inr query_result))
      conflict_guard in
  match guarded with
  | inl result => ret result
  | inr query_result => upsert_one result_parser _response_model query_result
  end.

Definition insert_many_and_support_upsert (result_parser : ResultParser)
    (_response_model : Model) (db : Exec) : M Artifact :=
  let* guarded :=
    try_except_IntegrityError
      (let* query_result := session_execute (async_mode result_parser) db in
       let* query_result := await_if (async_mode result_parser) query_result in
       ret (inr query_result))
      conflict_guard in
  match guarded with
  | inl result => ret result
  | inr query_result => upsert_many result_parser _response_model query_result
  end.

Definition delete_one_by_primary_key (result_parser : ResultParser)
    (_response_model : Model) (db : Exec) : M Artifact :=
  let* query_result := session_execute (async_mode result_parser) db in
  let* _ := session_expire_all in
  let* query_result := await_if (async_mode result_parser) query_result in
  delete_one result_parser _response_model query_result.

Definition delete_many_by_query (result_parser : ResultParser)
    (_response_model : Model) (db : Exec) : M Artifact :=
  let* query_result := session_execute (async_mode result_parser) db in
  let* _ := session_expire_all in
  let* query_result := await_if (async_mode result_parser) query_result in
  delete_many result_parser _response_model query_result.

Definition create_one_and_redirect_to_get_one_api_with_primary_key
    (result_parser : ResultParser) (_response_model : Model)
    (request : Request) (db : Exec) : M Artifact :=
  let* guarded :=
    try_except_IntegrityError
      (let* p := session_execute (async_mode result_parser) db in
       let* cursor := await_if (async_mode result_parser) p in
       let* query_result := unpack_single (rows cursor) in
       ret (inr query_result))
      conflict_guard in
  match guarded with
  | inl result => ret result
  | inr query_result =>
      post_redirect_get result_parser _response_model query_result request
  end.

Definition partial_update_one_by_primary_key (result_parser : ResultParser)
    (_response_model : Model) (db : Exec) : M Artifact :=
  let* query_result := session_execute (async_mode result_parser) db in
  let* _ := session_expire_all in
  let* query_result := await_if (async_mode result_parser) query_result in
  patch_one result_parser _response_model query_result.

Definition partial_update_many_by_query (result_parser : ResultParser)
    (_response_model : Model) (db : Exec) : M Artifact :=
  let* query_result := session_execute (async_mode result_parser) db in
  let* _ := session_expire_all in
  let* query_result := await_if (async_mode result_parser) query_result in
  patch_many result_parser _response_model query_result.

Definition entire_update_by_primary_key (result_parser : ResultParser)
    (_response_model : Model) (db : Exec) : M Artifact :=
  let* query_result := session_execute (async_mode result_parser) db in
  let* _ := session_expire_all in
  let* query_result := await_if (async_mode result_parser) query_result in
  update_one result_parser _response_model query_result.

Definition entire_update_many_by_query (result_parser : ResultParser)
    (_response_model : Model) (db : Exec) : M Artifact :=
  let* query_result := session_execute (async_mode result_parser) db in
  let* _ := session_expire_all in
  let* query_result := await_if (async_mode result_parser) query_result in
  update_many result_parser _response_model query_result.

(** [api_register]: the handler wired for each operation kind. *)
Definition api_register (kind : CrudMethods) (result_parser : ResultParser)
    (_response_model : Model) (request : Request) (db : Exec) : M Artifact :=
  match kind with
  | FIND_ONE => get_one_by_primary_key result_parser _response_model db
  | FIND_MANY => get_many result_parser _response_model db
  | UPSERT_ONE => insert_one_and_support_upsert result_parser _response_model db
  | UPSERT_MANY => insert_many_and_support_upsert result_parser _response_model db
  | DELETE_ONE => delete_one_by_primary_key result_parser _response_model db
  | DELETE_MANY => delete_many_by_query result_parser _response_model db
  | POST_REDIRECT_GET =>
      create_one_and_redirect_to_get_one_api_with_primary_key
        result_parser _response_model request db
  | PATCH_ONE => partial_update_one_by_primary_key result_parser _response_model db
  | PATCH_MANY => partial_update_many_by_query result_parser _response_model db
  | UPDATE_ONE => entire_update_by_primary_key result_parser _response_model db
  | UPDATE_MANY => entire_update_many_by_query result_parser _response_model db
  end.

(** The [status_code] given to each route decorator ([api.get("")] of
    find-many keeps FastAPI's default, 200). *)
Definition route_status_code (kind : CrudMethods) : Z :=
  match kind with
  | UPSERT_ONE | UPSERT_MANY => 201
  | POST_REDIRECT_GET => 303
  | _ => 200
  end.

(** The status the client sees: a returned response object keeps its
    own, a returned body takes the route's. *)
Definition http_status (kind : CrudMethods) (a : Artifact) : Z :=
  match a with
  | ABody _ => route_status_code kind
  | AResponse s => s
  | ARedirect _ s => s
  end.

End crud_router_builder.

(** * Vocabulary of the properties *)

(** The world after some more logged calls. *)
Definition logged (w : World) (evs : list Event) : World :=
  mkWorld (headers w) (events w ++ evs).

(** The session calls of the update, patch and delete handlers, in the
    order they take effect. *)
Definition mutation_prefix (async : bool) : list Event :=
  if async then [EvExpireAll; EvExecute] else [EvExecute; EvExpireAll].

(** Kinds whose body is a list. *)
Definition list_shaped (kind : CrudMethods) : bool :=
  match kind with
  | FIND_MANY | UPDATE_MANY | PATCH_MANY | UPSERT_MANY | DELETE_MANY => true
  | _ => false
  end.

(** The header agrees with the body, and the body has the shape of the
    kind. *)
Definition is_list (p : Parsed) : bool :=
  match p with PObj _ => false | PList _ => true end.

Definition well_counted (list_shaped : bool) (a : Artifact) (w : World) : Prop :=
  match a with
  | ABody p =>
      headers w !! "x-total-count" = Some (str_nat (entity_count p)) /\
      is_list p = list_shaped
  | _ => True
  end.


(** What the commit step adds to the log under the autocommit policy. *)
Definition commit_events (self : ResultParser) : list Event :=
  if autocommit self then [EvCommit] else [].

(** The world after the count header has been written. *)
Definition counted (w : World) (n : nat) (evs : list Event) : World :=
  mkWorld (<["x-total-count" := str_nat n]> (headers w)) (events w ++ evs).

(** The order asked of a success transition: conversion, then the count
    header, then the commit. *)
Definition conversion_header_commit (evs : list Event) : Prop :=
  exists n, evs = [EvParse true; EvSetHeader "x-total-count" n; EvCommit].

(** No header is written before a conversion has succeeded. *)
Fixpoint header_after_conversion (converted : bool) (evs : list Event) : bool :=
  match evs with
  | [] => true
  | EvParse true :: evs' => header_after_conversion true evs'
  | EvSetHeader _ _ :: evs' => converted && header_after_conversion converted evs'
  | _ :: evs' => header_after_conversion converted evs'
  end.

(** Kinds whose interpreter method converts before it writes the header. *)
Definition converts_first (kind : CrudMethods) : bool :=
  match kind with
  | UPDATE_ONE | UPDATE_MANY | PATCH_ONE | PATCH_MANY => false
  | _ => true
  end.

(** Kinds whose handler wraps execution in the conflict guard. *)
Definition conflict_guarded (kind : CrudMethods) : bool :=
  match kind with
  | UPSERT_ONE | UPSERT_MANY | POST_REDIRECT_GET => true
  | _ => false
  end.

(** Update, patch and delete kinds. *)
Definition mutating (kind : CrudMethods) : bool :=
  match kind with
  | UPDATE_ONE | UPDATE_MANY | PATCH_ONE | PATCH_MANY
  | DELETE_ONE | DELETE_MANY => true
  | _ => false
  end.

(** The read-by-key end point the redirect points at. *)
Definition redirect_end_point (self : ResultParser) (request : Request) : string :=
  url_path request +:+ "/{" +:+ primary_name self +:+ "}".

(** A GET route is registered at [end_point]. *)
Definition get_route_registered (end_point : string) (routes : list Route) : Prop :=
  exists route method,
    route ∈ routes /\ route_path route = end_point /\
    method ∈ route_methods route /\ upper method = "GET".

(** Every route bound to [end_point] declares exactly one method, as the
    routes created by [api.get], [api.put], ... do. *)
Definition single_method_at (end_point : string) (routes : list Route) : Prop :=
  Forall (fun route =>
            route_path route = end_point -> length (route_methods route) = 1)
         routes.

(** The body of an artifact, if it has one. *)
Definition artifact_body (a : Artifact) : option Parsed :=
  match a with
  | ABody p => Some p
  | _ => None
  end.

(** ** Sample data *)

Module Samples.

(** A validator that accepts entities, rows led by a non-null scalar or
    an entity, and key dicts over scalars. *)
Definition item_validator (i : Item) : option Entity :=
  match i with
  | ICol (OEntity d) => Some d
  | ICol (OVal _) => None
  | IRow (mkRow (OEntity d) _) => Some d
  | IRow (mkRow (OVal VNone) _) => None
  | IRow (mkRow (OVal v) _) => Some [("id", v)]
  | IKeyDict name (OVal v) => Some [(name, v)]
  | IKeyDict _ (OEntity _) => None
  end.

Definition row_1 : Row := mkRow (OVal (VInt 1)) [OVal (VStr "a")].
Definition row_2 : Row := mkRow (OVal (VInt 2)) [OVal (VStr "b")].
Definition null_row : Row := mkRow (OVal VNone) [].
Definition entity_row : Row :=
  mkRow (OEntity [("id", VInt 1); ("name", VStr "a")]) [].

Definition sync_parser : ResultParser := mkParser false "id" true.
Definition async_parser : ResultParser := mkParser true "id" true.
Definition manual_commit_parser : ResultParser := mkParser false "id" false.

Definition items_request : Request :=
  mkRequest "/items"
    [mkRoute "/items" ["POST"]; mkRoute "/items/{id}" ["GET"];
     mkRoute "/items/{id}" ["DELETE"]].

Definition writeonly_request : Request :=
  mkRequest "/items" [mkRoute "/items" ["POST"]; mkRoute "/items/{id}" ["DELETE"]].

End Samples.

(** How many leading items convert before the first one that does not. *)
Fixpoint converted_prefix (m : Model) (items : list Item) : nat :=
  match items with
  | [] => 0
  | i :: items' =>
      match parse_obj_as m (ROne i) with
      | Some _ => S (converted_prefix m items')
      | None => 0
      end
  end.

(** Boolean reading of [get_route_registered]. *)
Definition is_get_route_at (end_point : string) (route : Route) : bool :=
  bool_decide (route_path route = end_point) &&
  existsb (fun method => bool_decide (upper method = "GET")) (route_methods route).

(** The two steps of a success transition before the commit, in the order
    the kind performs them. *)
Definition transition_steps (kind : CrudMethods) (p : Parsed) : list Event :=
  if converts_first kind
  then [EvParse true; EvSetHeader "x-total-count" (str_nat (entity_count p))]
  else [EvSetHeader "x-total-count" (str_nat (entity_count p)); EvParse true].

(** Calls made on the session before the interpreter runs. *)
Definition session_call (ev : Event) : Prop := ev = EvExecute \/ ev = EvExpireAll.

(** * The rest of the builder *)

(** ** Route registration *)

(** [path = '/{' + primary_name + '}'], the path of the operations by
    key. *)
Definition item_path (primary_name : string) : string :=
  "/{" +:+ primary_name +:+ "}".

(** The route each api factory adds to [api]: the method of its decorator
    ([api.get], [api.post], ...) and the path given to it. *)
Definition api_route (primary_name : string) (kind : CrudMethods) : Route :=
  match kind with
  | FIND_ONE => mkRoute (item_path primary_name) ["GET"]
  | FIND_MANY => mkRoute "" ["GET"]
  | UPSERT_ONE => mkRoute "" ["POST"]
  | UPSERT_MANY => mkRoute "" ["POST"]
  | DELETE_ONE => mkRoute (item_path primary_name) ["DELETE"]
  | DELETE_MANY => mkRoute "" ["DELETE"]
  | POST_REDIRECT_GET => mkRoute "" ["POST"]
  | PATCH_ONE => mkRoute (item_path primary_name) ["PATCH"]
  | PATCH_MANY => mkRoute "" ["PATCH"]
  | UPDATE_ONE => mkRoute (item_path primary_name) ["PUT"]
  | UPDATE_MANY => mkRoute "" ["PUT"]
  end.

(** The registration loop at the end of [crud_router_builder]: for every
    request method the model layer lists, one factory call per operation
    kind bound to it, in order. The argument is that nested listing. *)
Definition register_routes (primary_name : string)
    (methods_dependencies : list (list CrudMethods)) : list Route :=
  concat (map (map (api_route primary_name)) methods_dependencies).

(** [include_router(api, prefix=...)]: FastAPI mounts every route of [api]
    under the prefix. *)
Definition include_router (prefix : string) (routes : list Route) : list Route :=
  map (fun route => mkRoute (prefix +:+ route_path route) (route_methods route))
      routes.

(** ** Argument extraction of get_many *)

(** [d.pop(key, None)] on the query dict: the value bound to [key], if any,
    and the dict without it. *)
Definition dict_pop {V} (key : string) (d : gmap string V)
    : option V * gmap string V :=
  (d !! key, delete key d).

Record GetManyArguments (V : Type) : Type := mkGetManyArguments {
  filter_args : gmap string V;
  limit : option V;
  offset : option V;
  order_by_columns : option V
}.
Arguments mkGetManyArguments {V}.
Arguments filter_args {V}.
Arguments limit {V}.
Arguments offset {V}.
Arguments order_by_columns {V}.

(** The first four statements of [get_many]: three pops, and what is left
    goes to the query service as [filter_args]. *)
Definition get_many_arguments {V} (query_dict : gmap string V)
    : GetManyArguments V :=
  let '(limit, query_dict) := dict_pop "limit" query_dict in
  let '(offset, query_dict) := dict_pop "offset" query_dict in
  let '(order_by_columns, query_dict) := dict_pop "order_by_columns" query_dict in
  mkGetManyArguments query_dict limit offset order_by_columns.

(** * Vocabulary of the further properties *)

(** The session calls a handler has logged when it reaches the
    interpreter. *)
Definition session_prefix (self : ResultParser) (kind : CrudMethods) : list Event :=
  if mutating kind then mutation_prefix (async_mode self) else [EvExecute].

(** The session calls logged when the statement fails. *)
Definition failure_prefix (self : ResultParser) (kind : CrudMethods) : list Event :=
  if mutating kind && async_mode self then [EvExpireAll; EvExecute]
  else [EvExecute].

(** Kinds that have a 204 answer. *)
Definition answers_empty (kind : CrudMethods) : bool :=
  match kind with
  | FIND_ONE | UPDATE_ONE | UPDATE_MANY | PATCH_ONE | PATCH_MANY
  | DELETE_ONE | DELETE_MANY => true
  | _ => false
  end.

(** The world after a run: the count header written or not, and the calls
    logged. *)
Definition with_header (hdr : option nat) (w : World) (new : list Event) : World :=
  match hdr with
  | Some n => counted w n new
  | None => logged w new
  end.

(** Every way a handler can end: the result, the count written to the
    header if any, and the calls logged. *)
Inductive Run (self : ResultParser) (kind : CrudMethods)
  : Result Artifact -> option nat -> list Event -> Prop :=
| Run_failed e :
    Run self kind (Raise e) None (failure_prefix self kind)
| Run_conflict :
    conflict_guarded kind = true ->
    Run self kind (Ok (AResponse HTTPStatus.CONFLICT)) None [EvExecute]
| Run_unpack k :
    Run self kind (Raise ValueError) None
      (session_prefix self kind ++ replicate k (EvParse true))
| Run_empty tail :
    answers_empty kind = true ->
    tail = [] \/ tail = commit_events self ->
    Run self kind (Ok (AResponse HTTPStatus.NO_CONTENT)) None
      (session_prefix self kind ++ tail)
| Run_multiple :
    Run self kind (Raise MultipleResultsFound) None (session_prefix self kind)
| Run_body p :
    kind <> POST_REDIRECT_GET ->
    Run self kind (Ok (ABody p)) (Some (entity_count p))
      (session_prefix self kind ++ transition_steps kind p ++ commit_events self)
| Run_invalid k :
    Run self kind (Raise ValidationError) None
      (session_prefix self kind ++ replicate k (EvParse true) ++ [EvParse false])
| Run_invalid_counted n :
    converts_first kind = false ->
    Run self kind (Raise ValidationError) (Some n)
      (session_prefix self kind
       ++ [EvSetHeader "x-total-count" (str_nat n); EvParse false])
| Run_assertion :
    kind = POST_REDIRECT_GET ->
    Run self kind (Raise AssertionError) None [EvExecute; EvParse true]
| Run_not_registered msg :
    kind = POST_REDIRECT_GET ->
    Run self kind (Raise (FindOneApiNotRegister 404 msg)) None
      [EvExecute; EvParse true; EvRollback]
| Run_redirect url :
    kind = POST_REDIRECT_GET ->
    Run self kind (Ok (ARedirect url HTTPStatus.SEE_OTHER)) None
      ([EvExecute; EvParse true] ++ commit_events self).

(** How many statements a log executes. *)
Definition is_execute (ev : Event) : bool :=
  match ev with EvExecute => true | _ => false end.

Definition executions (evs : list Event) : nat :=
  length (List.filter is_execute evs).

(** The status codes each kind can answer with. *)
Definition status_codes (kind : CrudMethods) : list Z :=
  match kind with
  | FIND_MANY => [200%Z]
  | UPSERT_ONE | UPSERT_MANY => [201%Z; 409%Z]
  | POST_REDIRECT_GET => [303%Z; 409%Z]
  | _ => [200%Z; 204%Z]
  end.

(** Kinds bound to the path of a single entity. *)
Definition by_key (kind : CrudMethods) : bool :=
  match kind with
  | FIND_ONE | UPDATE_ONE | PATCH_ONE | DELETE_ONE => true
  | _ => false
  end.

(** The three kinds registered as POST on the collection path. *)
Definition posts_to_collection (kind : CrudMethods) : bool :=
  match kind with
  | UPSERT_ONE | UPSERT_MANY | POST_REDIRECT_GET => true
  | _ => false
  end.

(** Calls other than commit and rollback. *)
Definition no_boundary_call (evs : list Event) : Prop :=
  Forall (fun ev => ev <> EvCommit /\ ev <> EvRollback) evs.

(** * Properties *)

Import SQLALchemyResultParse crud_router_builder.


Ltac unfold_monad :=
  unfold bind, ret, raise, emit, set_header, session_expire_all in *.

Section ParseFacts.
Context (m : Model) (x : Raw) (w : World).

Lemma parse_Some p :
  parse_obj_as m x = Some p ->
  parse m x w = (Ok p, mkWorld (headers w) (events w ++ [EvParse true])).
Proof. intros H. unfold parse. rewrite H. reflexivity. Qed.

Lemma parse_None :
  parse_obj_as m x = None ->
  parse m x w = (Raise ValidationError, mkWorld (headers w) (events w ++ [EvParse false])).
Proof. intros H. unfold parse. rewrite H. reflexivity. Qed.

Lemma parse_Ok_inv p w' :
  parse m x w = (Ok p, w') ->
  parse_obj_as m x = Some p /\
  w' = mkWorld (headers w) (events w ++ [EvParse true]).
Proof.
  unfold parse. destruct (parse_obj_as m x); unfold_monad; simpl; intros H;
    inversion H; auto.
Qed.
End ParseFacts.

Lemma commit_run self w :
  commit self w =
  (Ok tt, mkWorld (headers w)
            (events w ++ if autocommit self then [EvCommit] else [])).
Proof.
  unfold commit. destruct (autocommit self), (async_mode self); unfold_monad;
    simpl; rewrite ?app_nil_r; destruct w; reflexivity.
Qed.

Lemma parse_obj_as_one_shape m i p :
  parse_obj_as m (ROne i) = Some p -> exists e, p = PObj e.
Proof.
  destruct m; simpl; [|discriminate].
  destruct (validate i); simpl; intros H; inversion H; eauto.
Qed.

Lemma parse_obj_as_many_shape m l p :
  parse_obj_as m (RMany l) = Some p ->
  exists es, p = PList es /\ length es = length l.
Proof.
  destruct m; simpl; [discriminate|].
  destruct (mapM validate l) as [es|] eqn:E; simpl; intros H; inversion H.
  exists es. split; [reflexivity|]. symmetry. eapply length_mapM, E.
Qed.

(** [parse_each] converts every item or stops at the first failure; it
    never touches the headers. *)
Lemma parse_each_Ok_inv m items : forall w ps w',
  parse_each m items w = (Ok ps, w') ->
  Forall2 (fun i p => parse_obj_as m (ROne i) = Some p) items ps /\
  w' = mkWorld (headers w) (events w ++ replicate (length items) (EvParse true)).
Proof.
  induction items as [|i items IH]; simpl; intros w ps w' H.
  - unfold_monad. injection H as <- <-. rewrite app_nil_r. destruct w; auto.
  - unfold bind in H at 1.
    destruct (parse m (ROne i) w) as [[p|e] w1] eqn:Ep; [|discriminate].
    apply parse_Ok_inv in Ep as [Hp ->].
    unfold bind in H at 1.
    destruct (parse_each m items _) as [[ps'|e] w2] eqn:Eps; [|discriminate].
    apply IH in Eps as [Hall ->]. unfold ret in H. inversion H; subst.
    split; [constructor; assumption|]. simpl. rewrite <- app_assoc. reflexivity.
Qed.

Lemma parse_each_Raise_inv m items : forall w e w',
  parse_each m items w = (Raise e, w') ->
  e = ValidationError /\ headers w' = headers w /\
  Exists (fun i => parse_obj_as m (ROne i) = None) items.
Proof.
  induction items as [|i items IH]; simpl; intros w e w' H.
  - discriminate.
  - unfold bind in H at 1. unfold parse in H.
    destruct (parse_obj_as m (ROne i)) as [p|] eqn:Ep.
    + unfold_monad. simpl in H.
      destruct (parse_each m items _) as [[ps'|e'] w2] eqn:Eps; [discriminate|].
      inversion H; subst. apply IH in Eps as (-> & Hh & Hex). simpl in Hh.
      auto.
    + unfold_monad. simpl in H. inversion H; subst. simpl. auto.
Qed.

(** Evaluation of the monad, one statement at a time. *)
Section Eval.
Context {A B : Type} (k : A -> M B) (w : World).

Lemma bind_ret (a : A) : bind (ret a) k w = k a w.
Proof. reflexivity. Qed.

Lemma bind_raise (e : Exn) : bind (raise e) k w = (Raise e, w).
Proof. reflexivity. Qed.

Lemma bind_bind {C} (m : M C) (h : C -> M A) :
  bind (bind m h) k w = bind m (fun c => bind (h c) k) w.
Proof. unfold bind. destruct (m w) as [[c|e] w1]; reflexivity. Qed.
End Eval.

Section EvalUnit.
Context {B : Type} (k : unit -> M B) (w : World).

Lemma bind_emit (e : Event) :
  bind (emit e) k w = k tt (mkWorld (headers w) (events w ++ [e])).
Proof. reflexivity. Qed.

Lemma bind_set_header (name value : string) :
  bind (set_header name value) k w =
  k tt (mkWorld (<[name := value]> (headers w))
                (events w ++ [EvSetHeader name value])).
Proof. reflexivity. Qed.

Lemma bind_commit self :
  bind (commit self) k w =
  k tt (mkWorld (headers w)
                (events w ++ if autocommit self then [EvCommit] else [])).
Proof. unfold bind. rewrite commit_run. reflexivity. Qed.
End EvalUnit.

Lemma bind_parse_Some {B} m x p (k : Parsed -> M B) w :
  parse_obj_as m x = Some p ->
  bind (parse m x) k w = k p (mkWorld (headers w) (events w ++ [EvParse true])).
Proof. intros H. unfold bind. rewrite (parse_Some _ _ _ _ H). reflexivity. Qed.

Lemma bind_parse_None {B} m x (k : Parsed -> M B) w :
  parse_obj_as m x = None ->
  bind (parse m x) k w =
  (Raise ValidationError, mkWorld (headers w) (events w ++ [EvParse false])).
Proof. intros H. unfold bind. rewrite (parse_None _ _ _ H). reflexivity. Qed.

Lemma if_same {A} (b : bool) (x : A) : (if b then x else x) = x.
Proof. destruct b; reflexivity. Qed.

Ltac py_step :=
  first
    [ rewrite if_same
    | rewrite bind_ret
    | rewrite bind_raise
    | rewrite bind_emit
    | rewrite bind_set_header
    | rewrite bind_commit
    | rewrite bind_bind
    | match goal with
      | E : parse_obj_as ?m ?x = Some _ |- context [bind (parse ?m ?x) _ _] =>
          rewrite (bind_parse_Some m x _ _ _ E)
      | E : parse_obj_as ?m ?x = None |- context [bind (parse ?m ?x) _ _] =>
          rewrite (bind_parse_None m x _ _ E)
      end ];
  cbn beta iota.

Ltac py_eval := repeat py_step.

Ltac py_done := py_eval; unfold ret, raise; cbn [headers events].

Ltac case_parse :=
  match goal with
  | |- context [bind (parse ?m ?x) _ _] =>
      let E := fresh "Eparse" in destruct (parse_obj_as m x) eqn:E
  end.

Lemma find_one_counted self model r w a w' :
  find_one self model r w = (Ok a, w') -> well_counted false a w'.
Proof.
  unfold find_one, one_or_none.
  destruct (rows r) as [|row [|row' rest]]; py_eval.
  - py_done. intros Hrun; simplify_eq. exact I.
  - case_parse; py_done; intros Hrun; simplify_eq. simpl.
    apply parse_obj_as_one_shape in Eparse as [e ->]. simpl.
    split; [apply lookup_insert_eq|reflexivity].
  - py_done. intros Hrun; simplify_eq.
Qed.

Ltac one_shape E :=
  let e := fresh "e" in
  apply parse_obj_as_one_shape in E as [e ->]; simpl;
  split; [apply lookup_insert_eq|reflexivity].

Ltac many_shape E :=
  let es := fresh "es" in
  let L := fresh "L" in
  apply parse_obj_as_many_shape in E as (es & -> & L); simpl;
  rewrite L, ?length_map;
  split; [apply lookup_insert_eq|reflexivity].

Lemma find_many_counted self model r w a w' :
  find_many self model r w = (Ok a, w') -> well_counted true a w'.
Proof.
  unfold find_many. case_parse; py_done; intros Hrun; simplify_eq. simpl.
  many_shape Eparse.
Qed.

Lemma update_one_counted self model r w a w' :
  update_one self model r w = (Ok a, w') -> well_counted false a w'.
Proof.
  unfold update_one. destruct (rows r) as [|row rest].
  - py_done. intros Hrun; simplify_eq. exact I.
  - py_eval. case_parse; py_done; intros Hrun; simplify_eq. simpl.
    one_shape Eparse.
Qed.

Lemma patch_one_counted self model r w a w' :
  patch_one self model r w = (Ok a, w') -> well_counted false a w'.
Proof. exact (update_one_counted self model r w a w'). Qed.

Lemma update_many_counted self model r w a w' :
  update_many self model r w = (Ok a, w') -> well_counted true a w'.
Proof.
  unfold update_many. destruct (rows r) as [|row rest] eqn:Er.
  - py_done. intros Hrun; simplify_eq. exact I.
  - py_eval. case_parse; py_done; intros Hrun; simplify_eq. simpl.
    many_shape Eparse.
Qed.

Lemma patch_many_counted self model r w a w' :
  patch_many self model r w = (Ok a, w') -> well_counted true a w'.
Proof. exact (update_many_counted self model r w a w'). Qed.

Lemma upsert_one_counted self model row w a w' :
  upsert_one self model row w = (Ok a, w') -> well_counted false a w'.
Proof.
  unfold upsert_one. case_parse; py_done; intros Hrun; simplify_eq. simpl.
  one_shape Eparse.
Qed.

Lemma upsert_many_counted self model r w a w' :
  upsert_many self model r w = (Ok a, w') -> well_counted true a w'.
Proof.
  unfold upsert_many, fetchall. case_parse; py_done; intros Hrun; simplify_eq. simpl.
  many_shape Eparse.
Qed.

Lemma delete_many_counted self model r w a w' :
  delete_many self model r w = (Ok a, w') -> well_counted true a w'.
Proof.
  unfold delete_many. case_bool_decide.
  - py_eval. case_parse; py_done; intros Hrun; simplify_eq. simpl.
    many_shape Eparse.
  - py_done. intros Hrun; simplify_eq. exact I.
Qed.

Lemma delete_one_counted self model r w a w' :
  delete_one self model r w = (Ok a, w') -> well_counted false a w'.
Proof.
  unfold delete_one. case_bool_decide.
  - py_eval. unfold bind at 1.
    destruct (parse_each _ _ w) as [[ps|e] w1] eqn:Eeach; [|intros Hrun; simplify_eq].
    apply parse_each_Ok_inv in Eeach as [Hall ->].
    destruct ps as [|p [|p' ps]]; unfold unpack_single; py_done;
      intros Hrun; simplify_eq. simpl.
    inversion Hall as [|i p0 items ps0 Hp Hrest]; subst.
    one_shape Hp.
  - py_done. intros Hrun; simplify_eq. exact I.
Qed.

Lemma post_redirect_get_no_body self model row request w a w' :
  post_redirect_get self model row request w = (Ok a, w') ->
  exists url, a = ARedirect url HTTPStatus.SEE_OTHER.
Proof.
  unfold post_redirect_get. case_parse; py_eval; [|py_done; intros Hrun; simplify_eq].
  destruct (pop_attribute _ _) as [pk|]; [|py_done; intros Hrun; simplify_eq].
  unfold bind at 1.
  destruct (scan_routes _ _ _ _) as [[[|]|e] w1]; simpl; py_done;
    intros Hrun; simplify_eq.
  eauto.
Qed.

(** ** What the handlers do before they call the interpreter *)

Lemma fetch_run {B} async db (k : CursorResult -> M B) w :
  bind (session_execute async db) (fun p => bind (await_if async p) k) w =
  match db with
  | Executed r => k r (logged w [EvExecute])
  | Failed e => (Raise e, logged w [EvExecute])
  end.
Proof.
  unfold session_execute, await_if, await, as_cursor, run_statement, logged.
  destruct async, db; py_eval; reflexivity.
Qed.

Lemma fetch_expire_run {B} async db (k : CursorResult -> M B) w :
  bind (session_execute async db)
       (fun p => bind session_expire_all (fun _ => bind (await_if async p) k)) w =
  match db with
  | Executed r => k r (logged w (mutation_prefix async))
  | Failed e =>
      (Raise e, logged w (if async then [EvExpireAll; EvExecute] else [EvExecute]))
  end.
Proof.
  unfold session_execute, await_if, await, as_cursor, run_statement,
    session_expire_all, logged, mutation_prefix.
  destruct async, db; py_eval; cbn [headers events];
    rewrite <- ?app_assoc; reflexivity.
Qed.

Lemma guarded_rows_run async db w :
  try_except_IntegrityError
    (let* p := session_execute async db in
     let* cursor := await_if async p in
     let* query_result := unpack_single (rows cursor) in
     ret (inr query_result))
    conflict_guard w =
  match db with
  | Executed r =>
      match rows r with
      | [row] => (Ok (inr row), logged w [EvExecute])
      | _ => (Raise ValueError, logged w [EvExecute])
      end
  | Failed (IntegrityError orig_args) =>
      @conflict_guard Row (IntegrityError orig_args) orig_args (logged w [EvExecute])
  | Failed e => (Raise e, logged w [EvExecute])
  end.
Proof.
  unfold try_except_IntegrityError. rewrite fetch_run.
  destruct db as [r|e].
  - unfold unpack_single. destruct (rows r) as [|row [|row' rest]]; reflexivity.
  - destruct e; reflexivity.
Qed.

Lemma guarded_cursor_run async db w :
  try_except_IntegrityError
    (let* query_result := session_execute async db in
     let* query_result := await_if async query_result in
     ret (inr query_result))
    conflict_guard w =
  match db with
  | Executed r => (Ok (inr r), logged w [EvExecute])
  | Failed (IntegrityError orig_args) =>
      @conflict_guard CursorResult (IntegrityError orig_args) orig_args
        (logged w [EvExecute])
  | Failed e => (Raise e, logged w [EvExecute])
  end.
Proof.
  unfold try_except_IntegrityError. rewrite fetch_run.
  destruct db as [r|e]; [reflexivity|]. destruct e; reflexivity.
Qed.

Lemma conflict_guard_run {A} e orig_args w :
  @conflict_guard A e orig_args w =
  match orig_args with
  | [err_msg] =>
      if contains unique_marker err_msg
      then (Ok (inl (AResponse HTTPStatus.CONFLICT)), w)
      else (Raise e, w)
  | _ => (Raise ValueError, w)
  end.
Proof.
  unfold conflict_guard, unpack_single.
  destruct orig_args as [|err_msg [|? ?]]; try reflexivity.
  py_eval. destruct (contains unique_marker err_msg); reflexivity.
Qed.

Lemma api_register_counted kind self model request db w a w' :
  api_register kind self model request db w = (Ok a, w') ->
  well_counted (list_shaped kind) a w'.
Proof.
  destruct kind; simpl;
    unfold get_one_by_primary_key, get_many, entire_update_by_primary_key,
      entire_update_many_by_query, partial_update_one_by_primary_key,
      partial_update_many_by_query, insert_one_and_support_upsert,
      insert_many_and_support_upsert, delete_one_by_primary_key,
      delete_many_by_query,
      create_one_and_redirect_to_get_one_api_with_primary_key;
    rewrite ?fetch_run, ?fetch_expire_run.
  all: try (destruct db as [r|e]; [|intros Hrun; simplify_eq];
            eauto using find_one_counted, find_many_counted,
              update_one_counted, update_many_counted, patch_one_counted,
              patch_many_counted, delete_one_counted, delete_many_counted; fail).
  - unfold bind at 1. rewrite guarded_rows_run.
    destruct db as [r|e].
    + destruct (rows r) as [|row [|? ?]]; cbv beta iota;
        intros Hrun; simplify_eq.
      eapply upsert_one_counted, Hrun.
    + destruct e; try solve [intros Hrun; simplify_eq].
      rewrite conflict_guard_run.
      destruct orig_args as [|msg [|? ?]]; try solve [intros Hrun; simplify_eq].
      destruct (contains _ _); cbv beta iota; unfold ret;
        intros Hrun; simplify_eq. exact I.
  - unfold bind at 1. rewrite guarded_cursor_run.
    destruct db as [r|e].
    + cbv beta iota. apply upsert_many_counted.
    + destruct e; try solve [intros Hrun; simplify_eq].
      rewrite conflict_guard_run.
      destruct orig_args as [|msg [|? ?]]; try solve [intros Hrun; simplify_eq].
      destruct (contains _ _); cbv beta iota; unfold ret;
        intros Hrun; simplify_eq. exact I.
  - unfold bind at 1. rewrite guarded_rows_run.
    destruct db as [r|e].
    + destruct (rows r) as [|row [|? ?]]; cbv beta iota;
        intros Hrun; simplify_eq.
      apply post_redirect_get_no_body in Hrun as [url ->]. exact I.
    + destruct e; try solve [intros Hrun; simplify_eq].
      rewrite conflict_guard_run.
      destruct orig_args as [|msg [|? ?]]; try solve [intros Hrun; simplify_eq].
      destruct (contains _ _); cbv beta iota; unfold ret;
        intros Hrun; simplify_eq. exact I.
Qed.

(** C1. For every operation kind and every execution outcome, a handler
    that answers with a body has set [x-total-count] to the number of
    entities in that body: 1 for the singular kinds, the length of the list
    for the list-shaped kinds; and that body is served with 200 or 201. *)
Theorem x_total_count_equals_body_size kind self model request db w p w' :
  api_register kind self model request db w = (Ok (ABody p), w') ->
  headers w' !! "x-total-count" = Some (str_nat (entity_count p)) /\
  (if list_shaped kind
   then exists l, p = PList l /\ entity_count p = length l
   else exists e, p = PObj e /\ entity_count p = 1) /\
  (http_status kind (ABody p) = 200%Z \/ http_status kind (ABody p) = 201%Z).
Proof.
  intros Hrun. pose proof (api_register_counted _ _ _ _ _ _ _ _ Hrun) as [Hh Hs].
  split; [exact Hh|]. split.
  - destruct p as [e|l], (list_shaped kind); simpl in Hs; try discriminate; eauto.
  - destruct kind; simpl; auto.
    exfalso. simpl in Hrun.
    unfold create_one_and_redirect_to_get_one_api_with_primary_key in Hrun.
    unfold bind at 1 in Hrun. rewrite guarded_rows_run in Hrun.
    destruct db as [r|e].
    + destruct (rows r) as [|row [|? ?]]; cbv beta iota in Hrun; simplify_eq.
      apply post_redirect_get_no_body in Hrun as [url Hurl]. discriminate.
    + destruct e; simplify_eq. rewrite conflict_guard_run in Hrun.
      destruct orig_args as [|msg [|? ?]]; simplify_eq.
      destruct (contains _ _); cbv beta iota in Hrun; unfold ret in Hrun;
        simplify_eq.
Qed.

Import Samples.

Lemma x_total_count_equals_body_size_witness :
  let p := PList [[("id", VInt 1)]; [("id", VInt 2)]] in
  let w' := counted fresh 2 [EvExecute; EvExpireAll; EvParse true;
                             EvSetHeader "x-total-count" "2"; EvCommit] in
  api_register DELETE_MANY sync_parser (MList item_validator) items_request
    (Executed (mkCursor [row_1; row_2] 2)) fresh = (Ok (ABody p), w') /\
  headers w' !! "x-total-count" = Some (str_nat (entity_count p)) /\
  (exists l, p = PList l /\ entity_count p = length l) /\
  (http_status DELETE_MANY (ABody p) = 200%Z \/
   http_status DELETE_MANY (ABody p) = 201%Z).
Proof.
  intros p w'.
  assert (Hrun : api_register DELETE_MANY sync_parser (MList item_validator)
                   items_request (Executed (mkCursor [row_1; row_2] 2)) fresh
                 = (Ok (ABody p), w')) by (vm_compute; reflexivity).
  split; [exact Hrun|].
  exact (x_total_count_equals_body_size DELETE_MANY sync_parser
           (MList item_validator) items_request _ fresh p w' Hrun).
Defined.

(** ** The interpreter, case by case *)

Ltac flatten_log :=
  unfold logged, counted; cbn [headers events];
  rewrite <- ?app_assoc; cbn [app].

Lemma find_one_run self model r w :
  find_one self model r w =
  match rows r with
  | [] => (Ok (AResponse HTTPStatus.NO_CONTENT), logged w (commit_events self))
  | [row] =>
      match parse_obj_as model (ROne (ICol (row_first row))) with
      | Some p =>
          (Ok (ABody p),
           counted w 1 ([EvParse true; EvSetHeader "x-total-count" (str_nat 1)]
                        ++ commit_events self))
      | None => (Raise ValidationError, logged w [EvParse false])
      end
  | _ => (Raise MultipleResultsFound, w)
  end.
Proof.
  unfold find_one, one_or_none, commit_events.
  destruct (rows r) as [|row [|row' rest]]; py_eval.
  - py_done. flatten_log. reflexivity.
  - case_parse; py_done; flatten_log; reflexivity.
  - reflexivity.
Qed.

Lemma find_many_run self model r w :
  find_many self model r w =
  match parse_obj_as model (RMany (map ICol (scalars r))) with
  | Some p =>
      (Ok (ABody p),
       counted w (length (scalars r))
         ([EvParse true;
           EvSetHeader "x-total-count" (str_nat (length (scalars r)))]
          ++ commit_events self))
  | None => (Raise ValidationError, logged w [EvParse false])
  end.
Proof.
  unfold find_many, commit_events.
  case_parse; py_done; flatten_log; reflexivity.
Qed.

Lemma update_one_run self model r w :
  update_one self model r w =
  match rows r with
  | [] => (Ok (AResponse HTTPStatus.NO_CONTENT), w)
  | query_result :: _ =>
      match parse_obj_as model (ROne (IRow query_result)) with
      | Some p =>
          (Ok (ABody p),
           counted w 1 ([EvSetHeader "x-total-count" (str_nat 1); EvParse true]
                        ++ commit_events self))
      | None =>
          (Raise ValidationError,
           counted w 1 [EvSetHeader "x-total-count" (str_nat 1); EvParse false])
      end
  end.
Proof.
  unfold update_one, commit_events.
  destruct (rows r) as [|row rest]; [reflexivity|].
  py_eval. case_parse; py_done; flatten_log; reflexivity.
Qed.

Lemma patch_one_run self model r w :
  patch_one self model r w = update_one self model r w.
Proof. reflexivity. Qed.

Lemma update_many_run self model r w :
  update_many self model r w =
  match rows r with
  | [] => (Ok (AResponse HTTPStatus.NO_CONTENT), w)
  | _ :: _ =>
      let n := length (rows r) in
      match parse_obj_as model (RMany (map IRow (rows r))) with
      | Some p =>
          (Ok (ABody p),
           counted w n ([EvSetHeader "x-total-count" (str_nat n); EvParse true]
                        ++ commit_events self))
      | None =>
          (Raise ValidationError,
           counted w n [EvSetHeader "x-total-count" (str_nat n); EvParse false])
      end
  end.
Proof.
  unfold update_many, commit_events.
  destruct (rows r) as [|row rest]; [reflexivity|].
  py_eval. case_parse; py_done; flatten_log; reflexivity.
Qed.

Lemma patch_many_run self model r w :
  patch_many self model r w = update_many self model r w.
Proof. reflexivity. Qed.

Lemma upsert_one_run self model row w :
  upsert_one self model row w =
  match parse_obj_as model (ROne (IRow row)) with
  | Some p =>
      (Ok (ABody p),
       counted w 1 ([EvParse true; EvSetHeader "x-total-count" (str_nat 1)]
                    ++ commit_events self))
  | None => (Raise ValidationError, logged w [EvParse false])
  end.
Proof.
  unfold upsert_one, commit_events.
  case_parse; py_done; flatten_log; reflexivity.
Qed.

Lemma upsert_many_run self model r w :
  upsert_many self model r w =
  match parse_obj_as model (RMany (map IRow (fetchall r))) with
  | Some p =>
      (Ok (ABody p),
       counted w (length (fetchall r))
         ([EvParse true;
           EvSetHeader "x-total-count" (str_nat (length (fetchall r)))]
          ++ commit_events self))
  | None => (Raise ValidationError, logged w [EvParse false])
  end.
Proof.
  unfold upsert_many, commit_events.
  case_parse; py_done; flatten_log; reflexivity.
Qed.

Lemma delete_many_run self model r w :
  delete_many self model r w =
  if bool_decide (rowcount r <> 0%Z) then
    let result_list := map (IKeyDict (primary_name self)) (scalars r) in
    match parse_obj_as model (RMany result_list) with
    | Some p =>
        (Ok (ABody p),
         counted w (length result_list)
           ([EvParse true;
             EvSetHeader "x-total-count" (str_nat (length result_list))]
            ++ commit_events self))
    | None => (Raise ValidationError, logged w [EvParse false])
    end
  else (Ok (AResponse HTTPStatus.NO_CONTENT), logged w (commit_events self)).
Proof.
  unfold delete_many, commit_events. case_bool_decide; py_eval.
  - cbv zeta. case_parse; py_done; flatten_log; reflexivity.
  - py_done. flatten_log. reflexivity.
Qed.

Lemma parse_each_run m items : forall w,
  parse_each m items w =
  match mapM (fun i => parse_obj_as m (ROne i)) items with
  | Some ps => (Ok ps, logged w (replicate (length items) (EvParse true)))
  | None =>
      (Raise ValidationError,
       logged w (replicate (converted_prefix m items) (EvParse true)
                 ++ [EvParse false]))
  end.
Proof.
  induction items as [|i items IH]; intros w.
  - simpl. unfold ret, logged. rewrite app_nil_r. destruct w; reflexivity.
  - cbn [parse_each mapM converted_prefix].
    destruct (parse_obj_as m (ROne i)) as [p|] eqn:Eparse; py_eval.
    + unfold bind at 1. rewrite IH. cbn [mbind option_bind].
      destruct (mapM _ items) as [ps|]; cbn [mbind option_bind mret option_ret];
        py_done; flatten_log; reflexivity.
    + flatten_log. reflexivity.
Qed.

Lemma delete_one_run self model r w :
  delete_one self model r w =
  if bool_decide (rowcount r <> 0%Z) then
    let items := map (IKeyDict (primary_name self)) (scalars r) in
    match mapM (fun i => parse_obj_as model (ROne i)) items with
    | Some [p] =>
        (Ok (ABody p),
         counted w 1
           (replicate (length items) (EvParse true)
            ++ [EvSetHeader "x-total-count" (str_nat 1)] ++ commit_events self))
    | Some _ =>
        (Raise ValueError, logged w (replicate (length items) (EvParse true)))
    | None =>
        (Raise ValidationError,
         logged w (replicate (converted_prefix model items) (EvParse true)
                   ++ [EvParse false]))
    end
  else (Ok (AResponse HTTPStatus.NO_CONTENT), logged w (commit_events self)).
Proof.
  unfold delete_one, commit_events. case_bool_decide; py_eval.
  - cbv zeta. unfold bind at 1. rewrite parse_each_run.
    destruct (mapM _ _) as [[|p [|p' ps]]|]; unfold unpack_single;
      py_done; flatten_log; reflexivity.
  - py_done. flatten_log. reflexivity.
Qed.

(** The scan of the route table reads, and writes nothing. *)
Lemma scan_routes_pure end_point routes : forall found w,
  exists res, scan_routes end_point routes found w = (res, w).
Proof.
  induction routes as [|route routes IH]; intros found w; simpl.
  - eexists; reflexivity.
  - case_bool_decide; [|apply IH].
    destruct (route_methods route) as [|m [|m' ms]]; unfold unpack_single;
      py_eval; [eexists; reflexivity|apply IH|eexists; reflexivity].
Qed.

Lemma scan_routes_single_method end_point routes : forall found w,
  single_method_at end_point routes ->
  scan_routes end_point routes found w =
  (Ok (found || existsb (is_get_route_at end_point) routes), w).
Proof.
  unfold single_method_at.
  induction routes as [|route routes IH]; intros found w Hsingle; simpl.
  - rewrite orb_false_r. reflexivity.
  - inversion Hsingle as [|? ? Hone Hrest]; subst.
    unfold is_get_route_at at 1. case_bool_decide as Hpath; simpl.
    + specialize (Hone Hpath).
      destruct (route_methods route) as [|m [|m' ms]]; simpl in Hone; try lia.
      unfold unpack_single. py_eval. rewrite IH by assumption. simpl.
      case_bool_decide; simpl; destruct found; reflexivity.
    + apply IH. assumption.
Qed.

Lemma is_get_route_at_spec end_point routes :
  existsb (is_get_route_at end_point) routes = true <->
  get_route_registered end_point routes.
Proof.
  unfold get_route_registered, is_get_route_at. rewrite existsb_exists. split.
  - intros (route & Hin & Hget). apply andb_true_iff in Hget as [Hpath Hm].
    apply bool_decide_eq_true in Hpath. apply existsb_exists in Hm as (m & Hm & Hup).
    apply bool_decide_eq_true in Hup.
    exists route, m. rewrite <- !list_elem_of_In in *. auto.
  - intros (route & m & Hin & Hpath & Hm & Hup).
    exists route. rewrite list_elem_of_In in Hin. split; [assumption|].
    apply andb_true_iff. split; [apply bool_decide_eq_true; assumption|].
    apply existsb_exists. exists m. rewrite list_elem_of_In in Hm.
    split; [assumption|apply bool_decide_eq_true; assumption].
Qed.

Lemma post_redirect_get_run self model row request w :
  post_redirect_get self model row request w =
  match parse_obj_as model (ROne (IRow row)) with
  | None => (Raise ValidationError, logged w [EvParse false])
  | Some result =>
      match pop_attribute (primary_name self) result with
      | None => (Raise AssertionError, logged w [EvParse true])
      | Some primary_key_field =>
          match scan_routes (redirect_end_point self request)
                  (app_routes request) false (logged w [EvParse true]) with
          | (Ok true, w1) =>
              (Ok (ARedirect (url_path request +:+ "/" +:+ str_value primary_key_field)
                     HTTPStatus.SEE_OTHER),
               logged w1 (commit_events self))
          | (Ok false, w1) =>
              (Raise (FindOneApiNotRegister 404
                        (not_registered_message self (url_path request))),
               logged w1 [EvRollback])
          | (Raise e, w1) => (Raise e, w1)
          end
      end
  end.
Proof.
  unfold post_redirect_get, redirect_end_point, commit_events.
  case_parse; py_eval; [|reflexivity].
  destruct (pop_attribute _ _) as [pk|]; [|reflexivity].
  unfold bind at 1. fold (logged w [EvParse true]).
  destruct (scan_routes _ _ _ _) as [[[|]|e] w1]; cbn [negb]; py_done;
    flatten_log; reflexivity.
Qed.

(** ** The conflict detector *)

Lemma is_prefix_spec p : forall s,
  is_prefix p s = true <-> exists rest, s = p +:+ rest.
Proof.
  induction p as [|a p IH]; intros s; simpl.
  - split; [intros _; exists s; reflexivity|reflexivity].
  - destruct s as [|b s].
    + split; [discriminate|intros [rest Hrest]; discriminate].
    + rewrite andb_true_iff, bool_decide_eq_true, IH. split.
      * intros [-> [rest ->]]. exists rest. reflexivity.
      * intros [rest Hrest]. injection Hrest as -> ->. eauto.
Qed.

(** [contains] is Python's substring test. *)
Lemma contains_spec needle : forall hay,
  contains needle hay = true <->
  exists before after, hay = before +:+ needle +:+ after.
Proof.
  induction hay as [|c hay IH]; simpl.
  - rewrite orb_false_r, is_prefix_spec. split.
    + intros [rest Hrest]. exists "", rest. exact Hrest.
    + intros ([|b before] & after & H); [|discriminate]. eauto.
  - rewrite orb_true_iff, is_prefix_spec, IH. split.
    + intros [[rest Hrest]|(before & after & ->)].
      * exists "", rest. exact Hrest.
      * exists (String c before), after. reflexivity.
    + intros ([|b before] & after & H); [left; eauto|].
      right. injection H as -> ->. eauto.
Qed.

(** C3. In upsert-one, upsert-many and create-and-redirect, an integrity
    failure whose message holds the unique-constraint marker is answered
    with 409, and nothing but the execution is logged on the session: no
    commit, no rollback. A message without the marker has the same failure
    raised again, never a 409. *)
Theorem unique_violation_yields_conflict kind self model request msg w :
  conflict_guarded kind = true ->
  api_register kind self model request (Failed (IntegrityError [msg])) w =
  if contains unique_marker msg
  then (Ok (AResponse HTTPStatus.CONFLICT), logged w [EvExecute])
  else (Raise (IntegrityError [msg]), logged w [EvExecute]).
Proof.
  destruct kind; try discriminate; intros _; simpl;
    unfold insert_one_and_support_upsert, insert_many_and_support_upsert,
      create_one_and_redirect_to_get_one_api_with_primary_key;
    unfold bind at 1;
    rewrite ?guarded_rows_run, ?guarded_cursor_run, conflict_guard_run;
    destruct (contains unique_marker msg); reflexivity.
Qed.

Lemma unique_violation_yields_conflict_witness :
  conflict_guarded UPSERT_ONE = true /\
  api_register UPSERT_ONE sync_parser (MObj item_validator) items_request
    (Failed (IntegrityError
       ["ERROR:  duplicate key value violates unique constraint items_pkey"]))
    fresh =
  (Ok (AResponse HTTPStatus.CONFLICT), logged fresh [EvExecute]).
Proof.
  split; [reflexivity|].
  exact (unique_violation_yields_conflict UPSERT_ONE sync_parser
           (MObj item_validator) items_request
           "ERROR:  duplicate key value violates unique constraint items_pkey"
           fresh eq_refl).
Defined.

(** A failure that is not an integrity failure passes the guard
    untouched. *)
Lemma other_failures_propagate kind self model request e w :
  (forall orig_args, e <> IntegrityError orig_args) ->
  conflict_guarded kind = true ->
  api_register kind self model request (Failed e) w =
  (Raise e, logged w [EvExecute]).
Proof.
  intros Hother.
  destruct kind; try discriminate; intros _; simpl;
    unfold insert_one_and_support_upsert, insert_many_and_support_upsert,
      create_one_and_redirect_to_get_one_api_with_primary_key;
    unfold bind at 1;
    rewrite ?guarded_rows_run, ?guarded_cursor_run;
    destruct e; try reflexivity; exfalso; eapply Hother; reflexivity.
Qed.

(** ** Empty outcomes *)

(** C5. find-one, update-one and patch-one on zero rows, and delete-one on
    a zero affected-row count, answer 204 with an empty body, never a
    converted one, and leave the headers as they were. *)
Theorem singular_kinds_empty_outcome self model r w :
  (rows r = [] ->
   find_one self model r w =
     (Ok (AResponse 204), logged w (commit_events self)) /\
   update_one self model r w = (Ok (AResponse 204), w) /\
   patch_one self model r w = (Ok (AResponse 204), w)) /\
  (rowcount r = 0%Z ->
   delete_one self model r w =
     (Ok (AResponse 204), logged w (commit_events self))) /\
  artifact_body (AResponse 204) = None /\
  headers (logged w (commit_events self)) = headers w.
Proof.
  split; [|split; [|split; reflexivity]].
  - intros Hrows.
    assert (Hupdate : update_one self model r w = (Ok (AResponse 204), w))
      by (rewrite update_one_run, Hrows; reflexivity).
    split; [rewrite find_one_run, Hrows; reflexivity|].
    split; [exact Hupdate|exact Hupdate].
  - intros Hcount. rewrite delete_one_run.
    rewrite bool_decide_eq_false_2 by (rewrite Hcount; auto).
    reflexivity.
Qed.

Lemma singular_kinds_empty_outcome_witness :
  let r := mkCursor [] 0 in
  let model := MObj item_validator in
  (rows r = [] /\ rowcount r = 0%Z) /\
  find_one sync_parser model r fresh = (Ok (AResponse 204), logged fresh [EvCommit]) /\
  update_one sync_parser model r fresh = (Ok (AResponse 204), fresh) /\
  patch_one sync_parser model r fresh = (Ok (AResponse 204), fresh) /\
  delete_one sync_parser model r fresh = (Ok (AResponse 204), logged fresh [EvCommit]).
Proof.
  intros r model. split; [split; reflexivity|].
  destruct (singular_kinds_empty_outcome sync_parser model r fresh)
    as (Hrows & Hcount & _).
  destruct (Hrows eq_refl) as (Hfind & Hupdate & Hpatch).
  pose proof (Hcount eq_refl) as Hdelete.
  auto.
Defined.

Lemma list_body_complete kind self model request r w l w' :
  api_register kind self model request (Executed r) w = (Ok (ABody (PList l)), w') ->
  length l = length (rows r).
Proof.
  intros Hrun.
  pose proof (api_register_counted _ _ _ _ _ _ _ _ Hrun) as [_ Hshape].
  destruct kind; try discriminate; simpl in Hrun;
    unfold get_many, entire_update_many_by_query, partial_update_many_by_query,
      insert_many_and_support_upsert, delete_many_by_query in Hrun;
    rewrite ?fetch_run, ?fetch_expire_run in Hrun.
  - rewrite find_many_run in Hrun.
    destruct (parse_obj_as _ _) as [p|] eqn:Ep; simplify_eq.
    apply parse_obj_as_many_shape in Ep as (es & Hes & Hlen). simplify_eq.
    rewrite Hlen, length_map. unfold scalars. apply length_map.
  - rewrite update_many_run in Hrun. destruct (rows r) as [|row rest] eqn:Er;
      [simplify_eq|]. cbv zeta in Hrun.
    destruct (parse_obj_as _ _) as [p|] eqn:Ep; simplify_eq.
    apply parse_obj_as_many_shape in Ep as (es & Hes & Hlen). simplify_eq.
    rewrite Hlen. apply length_map.
  - rewrite patch_many_run, update_many_run in Hrun.
    destruct (rows r) as [|row rest] eqn:Er; [simplify_eq|]. cbv zeta in Hrun.
    destruct (parse_obj_as _ _) as [p|] eqn:Ep; simplify_eq.
    apply parse_obj_as_many_shape in Ep as (es & Hes & Hlen). simplify_eq.
    rewrite Hlen. apply length_map.
  - unfold bind at 1 in Hrun. rewrite guarded_cursor_run in Hrun.
    cbv beta iota in Hrun. rewrite upsert_many_run in Hrun.
    destruct (parse_obj_as _ _) as [p|] eqn:Ep; simplify_eq.
    apply parse_obj_as_many_shape in Ep as (es & Hes & Hlen). simplify_eq.
    rewrite Hlen. apply length_map.
  - rewrite delete_many_run in Hrun. case_bool_decide; [|simplify_eq].
    cbv zeta in Hrun.
    destruct (parse_obj_as _ _) as [p|] eqn:Ep; simplify_eq.
    apply parse_obj_as_many_shape in Ep as (es & Hes & Hlen). simplify_eq.
    rewrite Hlen, length_map. unfold scalars. apply length_map.
Qed.

(** C6. On an empty realized row sequence find-many answers 200 with an
    empty list and [x-total-count] 0, while update-many and patch-many
    answer 204 with no body. Whatever the rows, a list body has one entry
    per realized row: no kind returns a partially filled list. *)
Theorem list_kinds_empty_outcome self model r w :
  (rows r = [] ->
   (forall validate,
      find_many self (MList validate) r w =
        (Ok (ABody (PList [])),
         counted w 0 ([EvParse true; EvSetHeader "x-total-count" "0"]
                      ++ commit_events self)) /\
      headers (counted w 0 ([EvParse true; EvSetHeader "x-total-count" "0"]
                            ++ commit_events self)) !! "x-total-count" = Some "0" /\
      http_status FIND_MANY (ABody (PList [])) = 200%Z) /\
   update_many self model r w = (Ok (AResponse 204), w) /\
   patch_many self model r w = (Ok (AResponse 204), w) /\
   artifact_body (AResponse 204) = None) /\
  (forall kind request l w',
     api_register kind self model request (Executed r) w = (Ok (ABody (PList l)), w') ->
     length l = length (rows r)).
Proof.
  split.
  - intros Hrows.
    assert (Hupdate : update_many self model r w = (Ok (AResponse 204), w))
      by (rewrite update_many_run, Hrows; reflexivity).
    split; [|split; [exact Hupdate|split; [exact Hupdate|reflexivity]]].
    intros validate. split; [|split; [apply lookup_insert_eq|reflexivity]].
    rewrite find_many_run. unfold scalars. rewrite Hrows. reflexivity.
  - intros kind request l w'. apply list_body_complete.
Qed.

Lemma list_kinds_empty_outcome_witness :
  let r := mkCursor [] 0 in
  rows r = [] /\
  find_many sync_parser (MList item_validator) r fresh =
    (Ok (ABody (PList [])),
     counted fresh 0 [EvParse true; EvSetHeader "x-total-count" "0"; EvCommit]) /\
  update_many sync_parser (MList item_validator) r fresh = (Ok (AResponse 204), fresh) /\
  patch_many sync_parser (MList item_validator) r fresh = (Ok (AResponse 204), fresh).
Proof.
  intros r. split; [reflexivity|].
  destruct (list_kinds_empty_outcome sync_parser (MList item_validator) r fresh)
    as [Hempty _].
  destruct (Hempty eq_refl) as (Hfind & Hupdate & Hpatch & _).
  destruct (Hfind item_validator) as (Hrun & _).
  auto.
Defined.

(** ** The delete kinds *)

(** C7. delete-one and delete-many answer 204 exactly when the affected
    row count is zero, whatever keys were returned. With a non-zero count
    delete-many answers 200 with one converted key-object
    [{primary_name: key}] per returned key and [x-total-count] equal to
    their number; delete-one, given its single returned key, answers 200
    with that key-object and [x-total-count] 1. *)
Theorem delete_kinds_branch_on_rowcount self r w :
  (forall model a w',
     delete_one self model r w = (Ok a, w') ->
     (a = AResponse 204 <-> rowcount r = 0%Z)) /\
  (forall model a w',
     delete_many self model r w = (Ok a, w') ->
     (a = AResponse 204 <-> rowcount r = 0%Z)) /\
  (rowcount r = 0%Z ->
   forall model,
     delete_one self model r w =
       (Ok (AResponse 204), logged w (commit_events self)) /\
     delete_many self model r w =
       (Ok (AResponse 204), logged w (commit_events self))) /\
  (rowcount r <> 0%Z ->
   forall validate es,
     Forall2 (fun key e => validate (IKeyDict (primary_name self) key) = Some e)
       (scalars r) es ->
     delete_many self (MList validate) r w =
       (Ok (ABody (PList es)),
        counted w (length es)
          ([EvParse true; EvSetHeader "x-total-count" (str_nat (length es))]
           ++ commit_events self)) /\
     length es = length (scalars r) /\
     http_status DELETE_MANY (ABody (PList es)) = 200%Z) /\
  (rowcount r <> 0%Z ->
   forall validate key e,
     scalars r = [key] ->
     validate (IKeyDict (primary_name self) key) = Some e ->
     delete_one self (MObj validate) r w =
       (Ok (ABody (PObj e)),
        counted w 1
          ([EvParse true; EvSetHeader "x-total-count" (str_nat 1)]
           ++ commit_events self)) /\
     http_status DELETE_ONE (ABody (PObj e)) = 200%Z).
Proof.
  split; [|split; [|split; [|split]]].
  - intros model a w'. rewrite delete_one_run. case_bool_decide as Hc.
    + cbv zeta. intros Hrun. split; [|intros; contradiction].
      intros ->. destruct (mapM _ _) as [[|p [|p' ps]]|]; simplify_eq.
    + intros Hrun. simplify_eq. split; [intros _|reflexivity].
      destruct (decide (rowcount r = 0%Z)); [assumption|contradiction].
  - intros model a w'. rewrite delete_many_run. case_bool_decide as Hc.
    + cbv zeta. intros Hrun. split; [|intros; contradiction].
      intros ->. destruct (parse_obj_as _ _); simplify_eq.
    + intros Hrun. simplify_eq. split; [intros _|reflexivity].
      destruct (decide (rowcount r = 0%Z)); [assumption|contradiction].
  - intros Hcount model. rewrite delete_one_run, delete_many_run.
    rewrite bool_decide_eq_false_2 by (rewrite Hcount; auto). auto.
  - intros Hcount validate es Hall.
    assert (Hlen : length es = length (scalars r))
      by (symmetry; eapply Forall2_length, Hall).
    split; [|split; [exact Hlen|reflexivity]].
    rewrite delete_many_run, bool_decide_eq_true_2 by assumption. cbv zeta.
    assert (Hmap : mapM validate (map (IKeyDict (primary_name self)) (scalars r))
                   = Some es).
    { apply mapM_Some. clear Hlen. induction Hall; simpl; constructor; auto. }
    simpl. rewrite Hmap. simpl. rewrite length_map, Hlen. reflexivity.
  - intros Hcount validate key e Hkey He. split; [|reflexivity].
    rewrite delete_one_run, bool_decide_eq_true_2 by assumption. cbv zeta.
    rewrite Hkey. simpl. rewrite He. reflexivity.
Qed.

Lemma delete_kinds_branch_on_rowcount_witness :
  let many := mkCursor [row_1; row_2] 2 in
  let one := mkCursor [row_1] 1 in
  let gone := mkCursor [row_1] 0 in
  (rowcount gone = 0%Z /\ rowcount many <> 0%Z /\ rowcount one <> 0%Z) /\
  delete_one sync_parser (MObj item_validator) gone fresh =
    (Ok (AResponse 204), logged fresh [EvCommit]) /\
  delete_many sync_parser (MList item_validator) gone fresh =
    (Ok (AResponse 204), logged fresh [EvCommit]) /\
  delete_many sync_parser (MList item_validator) many fresh =
    (Ok (ABody (PList [[("id", VInt 1)]; [("id", VInt 2)]])),
     counted fresh 2 [EvParse true; EvSetHeader "x-total-count" "2"; EvCommit]) /\
  delete_one sync_parser (MObj item_validator) one fresh =
    (Ok (ABody (PObj [("id", VInt 1)])),
     counted fresh 1 [EvParse true; EvSetHeader "x-total-count" "1"; EvCommit]).
Proof.
  intros many one gone.
  assert (Hgone : rowcount gone = 0%Z) by reflexivity.
  assert (Hmany : rowcount many <> 0%Z) by (simpl; lia).
  assert (Hone : rowcount one <> 0%Z) by (simpl; lia).
  split; [auto|].
  destruct (delete_kinds_branch_on_rowcount sync_parser gone fresh)
    as (_ & _ & Hzero & _).
  destruct (Hzero Hgone (MObj item_validator)) as [Hd1 _].
  destruct (Hzero Hgone (MList item_validator)) as [_ Hd2].
  destruct (delete_kinds_branch_on_rowcount sync_parser many fresh)
    as (_ & _ & _ & Hlist & _).
  destruct (Hlist Hmany item_validator [[("id", VInt 1)]; [("id", VInt 2)]])
    as [Hd3 _]; [repeat constructor|].
  destruct (delete_kinds_branch_on_rowcount sync_parser one fresh)
    as (_ & _ & _ & _ & Hsingle).
  destruct (Hsingle Hone item_validator (OVal (VInt 1)) [("id", VInt 1)]
              eq_refl eq_refl) as [Hd4 _].
  auto.
Defined.

(** C10. delete-one with a non-zero affected-row count and a number of
    returned keys other than one ends in an exception and produces no
    response artifact; when every key-object converts, the exception is the
    [ValueError] of the single-target unpacking. Neither the header nor the
    commit is reached. *)
Theorem delete_one_needs_exactly_one_key self model r w :
  rowcount r <> 0%Z ->
  length (scalars r) <> 1 ->
  exists e new,
    delete_one self model r w = (Raise e, logged w new) /\
    (EvCommit ∉ new) /\
    (Forall (fun key =>
               is_Some (parse_obj_as model
                          (ROne (IKeyDict (primary_name self) key))))
       (scalars r) ->
     e = ValueError).
Proof.
  intros Hcount Hkeys.
  rewrite delete_one_run, bool_decide_eq_true_2 by assumption. cbv zeta.
  set (items := map (IKeyDict (primary_name self)) (scalars r)).
  destruct (mapM _ items) as [ps|] eqn:Emap.
  - assert (Hlen : length ps <> 1).
    { apply length_mapM in Emap. rewrite <- Emap. unfold items.
      rewrite length_map. exact Hkeys. }
    exists ValueError, (replicate (length items) (EvParse true)).
    split; [|split; [|reflexivity]].
    + destruct ps as [|p [|p' ps]]; simpl in Hlen; try lia; reflexivity.
    + intros Hin. apply elem_of_replicate in Hin as [Hin _]. discriminate.
  - exists ValidationError,
      (replicate (converted_prefix model items) (EvParse true) ++ [EvParse false])%list.
    split; [reflexivity|]. split.
    + intros Hin. apply elem_of_app in Hin as [Hin|Hin].
      * apply elem_of_replicate in Hin as [Hin _]. discriminate.
      * apply list_elem_of_singleton in Hin. discriminate.
    + intros Hall. exfalso. apply mapM_None in Emap.
      apply Exists_exists in Emap as (i & Hi & Hnone).
      unfold items in Hi. apply list_elem_of_In, in_map_iff in Hi as (key & <- & Hkey).
      rewrite Forall_forall in Hall.
      apply list_elem_of_In in Hkey.
      destruct (Hall key Hkey) as [p Hp]. congruence.
Qed.

Lemma delete_one_needs_exactly_one_key_witness :
  let r := mkCursor [row_1; row_2] 2 in
  (rowcount r <> 0%Z /\ length (scalars r) <> 1) /\
  exists e new,
    delete_one sync_parser (MObj item_validator) r fresh = (Raise e, logged fresh new) /\
    (EvCommit ∉ new) /\
    (Forall (fun key =>
               is_Some (parse_obj_as (MObj item_validator)
                          (ROne (IKeyDict (primary_name sync_parser) key))))
       (scalars r) ->
     e = ValueError).
Proof.
  intros r.
  assert (Hcount : rowcount r <> 0%Z) by (simpl; lia).
  assert (Hkeys : length (scalars r) <> 1) by (simpl; lia).
  split; [auto|].
  exact (delete_one_needs_exactly_one_key sync_parser (MObj item_validator)
           r fresh Hcount Hkeys).
Defined.

(** ** Which empty paths reach the commit *)

(** C9. With autocommit enabled, the 204 paths of update-one, update-many,
    patch-one and patch-many return at once: the world is untouched, no
    commit call is reached and the session is not committed. The 204 paths
    of find-one, delete-one and delete-many run the commit step before
    they return, and the session is committed. *)
Theorem empty_paths_and_the_commit_step self model r w :
  autocommit self = true ->
  (rows r = [] ->
   update_one self model r w = (Ok (AResponse 204), w) /\
   update_many self model r w = (Ok (AResponse 204), w) /\
   patch_one self model r w = (Ok (AResponse 204), w) /\
   patch_many self model r w = (Ok (AResponse 204), w)) /\
  (rows r = [] ->
   find_one self model r w = (Ok (AResponse 204), logged w [EvCommit]) /\
   find_one self model r w = bind (commit self) (fun _ => ret (AResponse 204)) w) /\
  (rowcount r = 0%Z ->
   delete_one self model r w = (Ok (AResponse 204), logged w [EvCommit]) /\
   delete_many self model r w = (Ok (AResponse 204), logged w [EvCommit]) /\
   delete_one self model r w = bind (commit self) (fun _ => ret (AResponse 204)) w /\
   delete_many self model r w = bind (commit self) (fun _ => ret (AResponse 204)) w).
Proof.
  intros Hauto.
  assert (Hcommit : bind (commit self) (fun _ => ret (AResponse 204)) w
                    = (Ok (AResponse 204), logged w [EvCommit])).
  { rewrite bind_commit, Hauto. reflexivity. }
  split; [|split].
  - intros Hrows.
    assert (Hone : update_one self model r w = (Ok (AResponse 204), w))
      by (rewrite update_one_run, Hrows; reflexivity).
    assert (Hmany : update_many self model r w = (Ok (AResponse 204), w))
      by (rewrite update_many_run, Hrows; reflexivity).
    split; [exact Hone|]. split; [exact Hmany|]. split; [exact Hone|exact Hmany].
  - intros Hrows. rewrite Hcommit, find_one_run, Hrows.
    unfold commit_events. rewrite Hauto. auto.
  - intros Hcount. rewrite Hcommit, delete_one_run, delete_many_run.
    rewrite bool_decide_eq_false_2 by (rewrite Hcount; auto).
    unfold commit_events. rewrite Hauto. auto.
Qed.

Lemma empty_paths_and_the_commit_step_witness :
  let r := mkCursor [] 0 in
  let model := MObj item_validator in
  (autocommit sync_parser = true /\ rows r = [] /\ rowcount r = 0%Z) /\
  update_one sync_parser model r fresh = (Ok (AResponse 204), fresh) /\
  patch_many sync_parser model r fresh = (Ok (AResponse 204), fresh) /\
  find_one sync_parser model r fresh = (Ok (AResponse 204), logged fresh [EvCommit]) /\
  delete_one sync_parser model r fresh = (Ok (AResponse 204), logged fresh [EvCommit]) /\
  delete_many sync_parser model r fresh = (Ok (AResponse 204), logged fresh [EvCommit]).
Proof.
  intros r model. split; [repeat split|].
  destruct (empty_paths_and_the_commit_step sync_parser model r fresh eq_refl)
    as (Hupdate & Hfind & Hdelete).
  destruct (Hupdate eq_refl) as (Hu1 & _ & _ & Hp2).
  destruct (Hfind eq_refl) as (Hf & _).
  destruct (Hdelete eq_refl) as (Hd1 & Hd2 & _).
  auto.
Defined.

(** ** The order of a success transition *)

Lemma one_count m i p : parse_obj_as m (ROne i) = Some p -> entity_count p = 1.
Proof. intros H. apply parse_obj_as_one_shape in H as [e ->]. reflexivity. Qed.

Lemma many_count m l p :
  parse_obj_as m (RMany l) = Some p -> entity_count p = length l.
Proof.
  intros H. apply parse_obj_as_many_shape in H as (es & -> & Hlen). exact Hlen.
Qed.

Lemma mutation_prefix_session async : Forall session_call (mutation_prefix async).
Proof.
  destruct async; simpl; repeat apply Forall_cons_2; try apply Forall_nil_2;
    unfold session_call; auto.
Qed.

Lemma execute_session : Forall session_call [EvExecute].
Proof. apply Forall_cons_2; [left; reflexivity|apply Forall_nil_2]. Qed.

(** Every handler that answers with a body has logged: session calls, the
    two steps of its kind, the commit step. *)
Lemma api_register_steps kind self model request db w p w' :
  api_register kind self model request db w = (Ok (ABody p), w') ->
  exists pre,
    events w' =
      (events w ++ pre ++ transition_steps kind p ++ commit_events self)%list /\
    Forall session_call pre.
Proof.
  unfold transition_steps.
  destruct kind; simpl;
    unfold get_one_by_primary_key, get_many, entire_update_by_primary_key,
      entire_update_many_by_query, partial_update_one_by_primary_key,
      partial_update_many_by_query, insert_one_and_support_upsert,
      insert_many_and_support_upsert, delete_one_by_primary_key,
      delete_many_by_query,
      create_one_and_redirect_to_get_one_api_with_primary_key;
    rewrite ?fetch_run, ?fetch_expire_run.
  - (* find-one *)
    destruct db as [r|e]; [|intros Hrun; simplify_eq].
    rewrite find_one_run. intros Hrun. exists [EvExecute].
    split; [|apply execute_session].
    destruct (rows r) as [|row [|? ?]]; simplify_eq.
    destruct (parse_obj_as _ _) as [p0|] eqn:Ep; simplify_eq.
    rewrite (one_count _ _ _ Ep). flatten_log. reflexivity.
  - (* find-many *)
    destruct db as [r|e]; [|intros Hrun; simplify_eq].
    rewrite find_many_run. intros Hrun. exists [EvExecute].
    split; [|apply execute_session].
    destruct (parse_obj_as _ _) as [p0|] eqn:Ep; simplify_eq.
    rewrite (many_count _ _ _ Ep), length_map. flatten_log. reflexivity.
  - (* update-one *)
    destruct db as [r|e]; [|intros Hrun; simplify_eq].
    rewrite update_one_run. intros Hrun. exists (mutation_prefix (async_mode self)).
    split; [|apply mutation_prefix_session].
    destruct (rows r) as [|row rest]; simplify_eq.
    destruct (parse_obj_as _ _) as [p0|] eqn:Ep; simplify_eq.
    rewrite (one_count _ _ _ Ep). flatten_log. reflexivity.
  - (* update-many *)
    destruct db as [r|e]; [|intros Hrun; simplify_eq].
    rewrite update_many_run. intros Hrun. exists (mutation_prefix (async_mode self)).
    split; [|apply mutation_prefix_session].
    destruct (rows r) as [|row rest] eqn:Er; simplify_eq. cbv zeta in Hrun.
    destruct (parse_obj_as _ _) as [p0|] eqn:Ep; simplify_eq.
    rewrite (many_count _ _ _ Ep), length_map. flatten_log. reflexivity.
  - (* patch-one *)
    destruct db as [r|e]; [|intros Hrun; simplify_eq].
    rewrite patch_one_run, update_one_run. intros Hrun.
    exists (mutation_prefix (async_mode self)).
    split; [|apply mutation_prefix_session].
    destruct (rows r) as [|row rest]; simplify_eq.
    destruct (parse_obj_as _ _) as [p0|] eqn:Ep; simplify_eq.
    rewrite (one_count _ _ _ Ep). flatten_log. reflexivity.
  - (* patch-many *)
    destruct db as [r|e]; [|intros Hrun; simplify_eq].
    rewrite patch_many_run, update_many_run. intros Hrun.
    exists (mutation_prefix (async_mode self)).
    split; [|apply mutation_prefix_session].
    destruct (rows r) as [|row rest] eqn:Er; simplify_eq. cbv zeta in Hrun.
    destruct (parse_obj_as _ _) as [p0|] eqn:Ep; simplify_eq.
    rewrite (many_count _ _ _ Ep), length_map. flatten_log. reflexivity.
  - (* upsert-one *)
    unfold bind at 1. rewrite guarded_rows_run. intros Hrun. exists [EvExecute].
    split; [|apply execute_session].
    destruct db as [r|e].
    + destruct (rows r) as [|row [|? ?]]; cbv beta iota in Hrun; simplify_eq.
      rewrite upsert_one_run in Hrun.
      destruct (parse_obj_as _ _) as [p0|] eqn:Ep; simplify_eq.
      rewrite (one_count _ _ _ Ep). flatten_log. reflexivity.
    + destruct e; simplify_eq. rewrite conflict_guard_run in Hrun.
      destruct orig_args as [|msg [|? ?]]; simplify_eq.
      destruct (contains _ _); cbv beta iota in Hrun; unfold ret in Hrun;
        simplify_eq.
  - (* upsert-many *)
    unfold bind at 1. rewrite guarded_cursor_run. intros Hrun. exists [EvExecute].
    split; [|apply execute_session].
    destruct db as [r|e].
    + cbv beta iota in Hrun. rewrite upsert_many_run in Hrun.
      destruct (parse_obj_as _ _) as [p0|] eqn:Ep; simplify_eq.
      rewrite (many_count _ _ _ Ep), length_map. flatten_log. reflexivity.
    + destruct e; simplify_eq. rewrite conflict_guard_run in Hrun.
      destruct orig_args as [|msg [|? ?]]; simplify_eq.
      destruct (contains _ _); cbv beta iota in Hrun; unfold ret in Hrun;
        simplify_eq.
  - (* delete-one *)
    destruct db as [r|e]; [|intros Hrun; simplify_eq].
    rewrite delete_one_run. intros Hrun. exists (mutation_prefix (async_mode self)).
    split; [|apply mutation_prefix_session].
    case_bool_decide; simplify_eq. cbv zeta in Hrun.
    destruct (mapM _ _) as [[|p0 [|p1 ps]]|] eqn:Emap; simplify_eq.
    pose proof (length_mapM _ _ _ Emap) as Hlen. simpl in Hlen.
    apply mapM_Some in Emap.
    destruct (map _ (scalars r)) as [|i [|i' items]]; simpl in Hlen; try lia.
    inversion Emap as [|? ? ? ? Hp _]; subst.
    rewrite (one_count _ _ _ Hp). flatten_log. reflexivity.
  - (* delete-many *)
    destruct db as [r|e]; [|intros Hrun; simplify_eq].
    rewrite delete_many_run. intros Hrun. exists (mutation_prefix (async_mode self)).
    split; [|apply mutation_prefix_session].
    case_bool_decide; simplify_eq. cbv zeta in Hrun.
    destruct (parse_obj_as _ _) as [p0|] eqn:Ep; simplify_eq.
    rewrite (many_count _ _ _ Ep). flatten_log. reflexivity.
  - (* create-and-redirect *)
    unfold bind at 1. rewrite guarded_rows_run. intros Hrun. exfalso.
    destruct db as [r|e].
    + destruct (rows r) as [|row [|? ?]]; cbv beta iota in Hrun; simplify_eq.
      apply post_redirect_get_no_body in Hrun as [url Hurl]. discriminate.
    + destruct e; simplify_eq. rewrite conflict_guard_run in Hrun.
      destruct orig_args as [|msg [|? ?]]; simplify_eq.
      destruct (contains _ _); cbv beta iota in Hrun; unfold ret in Hrun;
        simplify_eq.
Qed.

Lemma no_header_no_violation evs : forall converted,
  Forall (fun ev => forall name value, ev <> EvSetHeader name value) evs ->
  header_after_conversion converted evs = true.
Proof.
  induction evs as [|ev evs IH]; intros converted Hall; [reflexivity|].
  inversion Hall as [|? ? Hev Hrest]; subst.
  destruct ev as [| |[|]|name value| |]; simpl; auto.
  exfalso. eapply Hev. reflexivity.
Qed.

Lemma conversions_then_failure_no_header n (tail : list Event) :
  Forall (fun ev => forall name value, ev <> EvSetHeader name value) tail ->
  Forall (fun ev => forall name value, ev <> EvSetHeader name value)
    (replicate n (EvParse true) ++ tail)%list.
Proof.
  intros Htail. apply Forall_app. split; [|exact Htail].
  apply Forall_replicate. discriminate.
Qed.

Ltac no_header :=
  apply no_header_no_violation;
  repeat first
    [ apply Forall_nil_2
    | apply Forall_cons_2; [discriminate|]
    | apply conversions_then_failure_no_header
    | apply Forall_replicate; discriminate ].

Ltac close_log :=
  solve [eexists; split; [flatten_log; reflexivity|];
         first [reflexivity|no_header]].

(** On every run of a kind that converts first, whatever its outcome, the
    header is written only after a conversion has succeeded. *)
Lemma api_register_header_guarded kind self model request db w :
  converts_first kind = true ->
  exists new,
    events (api_register kind self model request db w).2 = (events w ++ new)%list /\
    header_after_conversion false new = true.
Proof.
  destruct kind; try discriminate; intros _; simpl;
    unfold get_one_by_primary_key, get_many, insert_one_and_support_upsert,
      insert_many_and_support_upsert, delete_one_by_primary_key,
      delete_many_by_query,
      create_one_and_redirect_to_get_one_api_with_primary_key;
    rewrite ?fetch_run, ?fetch_expire_run; unfold commit_events, mutation_prefix.
  - (* find-one *)
    destruct db as [r|e]; [|close_log].
    rewrite find_one_run. unfold commit_events.
    destruct (rows r) as [|row [|? ?]]; [| |close_log].
    + destruct (autocommit self); close_log.
    + destruct (parse_obj_as _ _); [|close_log].
      destruct (autocommit self); close_log.
  - (* find-many *)
    destruct db as [r|e]; [|close_log].
    rewrite find_many_run. unfold commit_events.
    destruct (parse_obj_as _ _); [|close_log].
    destruct (autocommit self); close_log.
  - (* upsert-one *)
    unfold bind at 1. rewrite guarded_rows_run.
    destruct db as [r|e].
    + destruct (rows r) as [|row [|? ?]]; cbv beta iota; [close_log| |close_log].
      rewrite upsert_one_run. unfold commit_events.
      destruct (parse_obj_as _ _); [|close_log].
      destruct (autocommit self); close_log.
    + destruct e; try close_log. rewrite conflict_guard_run.
      destruct orig_args as [|msg [|? ?]]; try close_log.
      destruct (contains _ _); cbv beta iota; unfold ret; close_log.
  - (* upsert-many *)
    unfold bind at 1. rewrite guarded_cursor_run.
    destruct db as [r|e].
    + cbv beta iota. rewrite upsert_many_run. unfold commit_events.
      destruct (parse_obj_as _ _); [|close_log].
      destruct (autocommit self); close_log.
    + destruct e; try close_log. rewrite conflict_guard_run.
      destruct orig_args as [|msg [|? ?]]; try close_log.
      destruct (contains _ _); cbv beta iota; unfold ret; close_log.
  - (* delete-one *)
    destruct db as [r|e]; [|destruct (async_mode self); close_log].
    rewrite delete_one_run. unfold commit_events.
    case_bool_decide; [|destruct (async_mode self), (autocommit self); close_log].
    cbv zeta.
    destruct (mapM _ _) as [ps|] eqn:Emap;
      [|destruct (async_mode self); close_log].
    destruct ps as [|p0 [|p1 ps]];
      [destruct (async_mode self); close_log| |destruct (async_mode self); close_log].
    apply length_mapM in Emap. simpl in Emap. rewrite Emap.
    destruct (async_mode self), (autocommit self); close_log.
  - (* delete-many *)
    destruct db as [r|e]; [|destruct (async_mode self); close_log].
    rewrite delete_many_run. unfold commit_events.
    case_bool_decide; [|destruct (async_mode self), (autocommit self); close_log].
    cbv zeta. destruct (parse_obj_as _ _); [|destruct (async_mode self); close_log].
    destruct (async_mode self), (autocommit self); close_log.
  - (* create-and-redirect *)
    unfold bind at 1. rewrite guarded_rows_run.
    destruct db as [r|e].
    + destruct (rows r) as [|row [|? ?]]; cbv beta iota; [close_log| |close_log].
      rewrite post_redirect_get_run. unfold commit_events.
      destruct (parse_obj_as _ _); [|close_log].
      destruct (pop_attribute _ _); [|close_log].
      destruct (scan_routes_pure (redirect_end_point self request)
                  (app_routes request) false
                  (logged (logged w [EvExecute]) [EvParse true])) as [res ->].
      destruct res as [[|]|e]; [destruct (autocommit self)| |]; close_log.
    + destruct e; try close_log. rewrite conflict_guard_run.
      destruct orig_args as [|msg [|? ?]]; try close_log.
      destruct (contains _ _); cbv beta iota; unfold ret; close_log.
Qed.

(** C2, as stated, does not hold. update-one writes the count header
    before it converts the row: on a row that converts, the steps run as
    header, conversion, commit; on a row that does not, the header is
    already written when the conversion fails. And with autocommit
    disabled a success transition ends after the header, with no commit. *)
Lemma success_transition_order_fails_as_stated :
  let good := update_one sync_parser (MObj item_validator) (mkCursor [row_1] 1) fresh in
  let bad := update_one sync_parser (MObj item_validator) (mkCursor [null_row] 1) fresh in
  let manual := find_one manual_commit_parser (MObj item_validator)
                  (mkCursor [entity_row] 1) fresh in
  good.1 = Ok (ABody (PObj [("id", VInt 1)])) /\
  events good.2 = [EvSetHeader "x-total-count" "1"; EvParse true; EvCommit] /\
  ~ conversion_header_commit (events good.2) /\
  header_after_conversion false (events good.2) = false /\
  bad = (Raise ValidationError,
         counted fresh 1 [EvSetHeader "x-total-count" "1"; EvParse false]) /\
  headers bad.2 !! "x-total-count" = Some "1" /\
  manual = (Ok (ABody (PObj [("id", VInt 1); ("name", VStr "a")])),
            counted fresh 1 [EvParse true; EvSetHeader "x-total-count" "1"]) /\
  ~ conversion_header_commit (events manual.2).
Proof.
  cbv zeta.
  split; [vm_compute; reflexivity|]. split; [vm_compute; reflexivity|].
  split; [intros [n Hn]; vm_compute in Hn; discriminate|].
  split; [vm_compute; reflexivity|]. split; [vm_compute; reflexivity|].
  split; [vm_compute; reflexivity|]. split; [vm_compute; reflexivity|].
  intros [n Hn]. vm_compute in Hn. discriminate.
Qed.

(** C2, amended. A handler that answers with a body has logged, after its
    session calls, the conversion and the count header, and then the commit
    step, which commits only under autocommit. For find-one, find-many,
    upsert-one, upsert-many, delete-one and delete-many the conversion comes
    before the header, and on every run of these kinds, successful or not,
    no header is written before a conversion has succeeded. *)
Theorem success_transition_order kind self model request db w :
  (forall p w',
     api_register kind self model request db w = (Ok (ABody p), w') ->
     exists pre steps,
       events w' = (events w ++ pre ++ steps ++ commit_events self)%list /\
       Forall session_call pre /\
       steps ≡ₚ [EvParse true;
                 EvSetHeader "x-total-count" (str_nat (entity_count p))] /\
       (converts_first kind = true ->
        steps = [EvParse true;
                 EvSetHeader "x-total-count" (str_nat (entity_count p))])) /\
  (converts_first kind = true ->
   exists new,
     events (api_register kind self model request db w).2
       = (events w ++ new)%list /\
     header_after_conversion false new = true) /\
  commit_events self = (if autocommit self then [EvCommit] else []).
Proof.
  split; [|split; [apply api_register_header_guarded|reflexivity]].
  intros p w' Hrun.
  destruct (api_register_steps _ _ _ _ _ _ _ _ Hrun) as (pre & Hlog & Hpre).
  exists pre, (transition_steps kind p).
  split; [exact Hlog|]. split; [exact Hpre|].
  unfold transition_steps. destruct (converts_first kind).
  - split; [reflexivity|intros _; reflexivity].
  - split; [apply perm_swap|discriminate].
Qed.

Lemma success_transition_order_witness :
  let db := Executed (mkCursor [row_1; row_2] 2) in
  let p := PList [[("id", VInt 1)]; [("id", VInt 2)]] in
  let w' := counted fresh 2 [EvExecute; EvParse true;
                             EvSetHeader "x-total-count" "2"; EvCommit] in
  (api_register UPSERT_MANY sync_parser (MList item_validator) items_request db fresh
     = (Ok (ABody p), w') /\
   converts_first UPSERT_MANY = true) /\
  (exists pre steps,
     events w' = (events fresh ++ pre ++ steps ++ commit_events sync_parser)%list /\
     Forall session_call pre /\
     steps ≡ₚ [EvParse true; EvSetHeader "x-total-count" (str_nat (entity_count p))] /\
     (converts_first UPSERT_MANY = true ->
      steps = [EvParse true;
               EvSetHeader "x-total-count" (str_nat (entity_count p))])) /\
  (exists new,
     events (api_register UPSERT_MANY sync_parser (MList item_validator)
               items_request db fresh).2 = (events fresh ++ new)%list /\
     header_after_conversion false new = true).
Proof.
  intros db p w'.
  assert (Hrun : api_register UPSERT_MANY sync_parser (MList item_validator)
                   items_request db fresh = (Ok (ABody p), w'))
    by (vm_compute; reflexivity).
  split; [split; [exact Hrun|reflexivity]|].
  destruct (success_transition_order UPSERT_MANY sync_parser
              (MList item_validator) items_request db fresh)
    as (Hsteps & Hguard & _).
  split; [exact (Hsteps p w' Hrun)|exact (Hguard eq_refl)].
Defined.

(** ** The redirect linker *)

(** C4, as stated, does not hold: with autocommit disabled and the GET
    route registered, create-and-redirect answers 303 and the session is
    not committed. *)
Lemma redirect_without_commit_when_autocommit_off :
  let run := post_redirect_get manual_commit_parser (MObj item_validator)
               row_1 items_request fresh in
  get_route_registered (redirect_end_point manual_commit_parser items_request)
    (app_routes items_request) /\
  run = (Ok (ARedirect "/items/1" 303), logged fresh [EvParse true]) /\
  EvCommit ∉ events run.2.
Proof.
  cbv zeta. split; [|split].
  - apply is_get_route_at_spec. vm_compute. reflexivity.
  - vm_compute. reflexivity.
  - vm_compute. intros Hin. apply list_elem_of_singleton in Hin. discriminate.
Qed.

(** C4, amended. After an insert whose row converts to an object holding
    the primary key, and with every route bound to
    [<collectionPath>/{primaryKeyName}] declaring exactly one method: if no
    GET route is registered there, the session is rolled back and the
    404-class error is raised, with no commit; if one is, the commit step
    runs, committing only under autocommit, and a 303 redirect to
    [<collectionPath>/<primaryKeyValue>] is returned. *)
Theorem redirect_needs_registered_get_route
    self model row request result primary_key_field w :
  parse_obj_as model (ROne (IRow row)) = Some result ->
  pop_attribute (primary_name self) result = Some primary_key_field ->
  single_method_at (redirect_end_point self request) (app_routes request) ->
  (~ get_route_registered (redirect_end_point self request) (app_routes request) ->
   post_redirect_get self model row request w =
     (Raise (FindOneApiNotRegister 404
               (not_registered_message self (url_path request))),
      logged w [EvParse true; EvRollback])) /\
  (get_route_registered (redirect_end_point self request) (app_routes request) ->
   post_redirect_get self model row request w =
     (Ok (ARedirect (url_path request +:+ "/" +:+ str_value primary_key_field)
            HTTPStatus.SEE_OTHER),
      logged w ([EvParse true] ++ if autocommit self then [EvCommit] else []))).
Proof.
  intros Hparse Hkey Hsingle.
  rewrite post_redirect_get_run, Hparse, Hkey.
  rewrite (scan_routes_single_method _ _ _ _ Hsingle). cbn [orb].
  destruct (existsb _ _) eqn:Hget.
  - apply is_get_route_at_spec in Hget. split; [intros Hno; contradiction|].
    intros _. unfold commit_events. flatten_log. reflexivity.
  - split; [intros _; flatten_log; reflexivity|].
    intros Hyes. apply is_get_route_at_spec in Hyes. congruence.
Qed.

Lemma redirect_needs_registered_get_route_witness :
  let model := MObj item_validator in
  let result := PObj [("id", VInt 1)] in
  (parse_obj_as model (ROne (IRow row_1)) = Some result /\
   pop_attribute (primary_name sync_parser) result = Some (VInt 1) /\
   single_method_at (redirect_end_point sync_parser items_request)
     (app_routes items_request) /\
   single_method_at (redirect_end_point sync_parser writeonly_request)
     (app_routes writeonly_request) /\
   get_route_registered (redirect_end_point sync_parser items_request)
     (app_routes items_request) /\
   ~ get_route_registered (redirect_end_point sync_parser writeonly_request)
       (app_routes writeonly_request)) /\
  post_redirect_get sync_parser model row_1 items_request fresh =
    (Ok (ARedirect "/items/1" 303), logged fresh [EvParse true; EvCommit]) /\
  post_redirect_get sync_parser model row_1 writeonly_request fresh =
    (Raise (FindOneApiNotRegister 404
              "End Point /items/{'id'} with GET method not found"),
     logged fresh [EvParse true; EvRollback]).
Proof.
  intros model result.
  assert (Hparse : parse_obj_as model (ROne (IRow row_1)) = Some result)
    by reflexivity.
  assert (Hkey : pop_attribute (primary_name sync_parser) result = Some (VInt 1))
    by reflexivity.
  assert (Hs1 : single_method_at (redirect_end_point sync_parser items_request)
                  (app_routes items_request))
    by (repeat constructor).
  assert (Hs2 : single_method_at (redirect_end_point sync_parser writeonly_request)
                  (app_routes writeonly_request))
    by (repeat constructor).
  assert (Hyes : get_route_registered (redirect_end_point sync_parser items_request)
                   (app_routes items_request))
    by (apply is_get_route_at_spec; vm_compute; reflexivity).
  assert (Hno : ~ get_route_registered
                    (redirect_end_point sync_parser writeonly_request)
                    (app_routes writeonly_request))
    by (rewrite <- is_get_route_at_spec; vm_compute; discriminate).
  split; [auto 10|].
  destruct (redirect_needs_registered_get_route sync_parser model row_1
              items_request result (VInt 1) fresh Hparse Hkey Hs1) as [_ Hredirect].
  destruct (redirect_needs_registered_get_route sync_parser model row_1
              writeonly_request result (VInt 1) fresh Hparse Hkey Hs2) as [Hmissing _].
  split; [exact (Hredirect Hyes)|exact (Hmissing Hno)].
Defined.

(** ** Cache invalidation around the mutating statement *)

Lemma interpreter_extends_log kind self model r w :
  mutating kind = true ->
  exists rest,
    events (match kind with
            | UPDATE_ONE => update_one self model r w
            | UPDATE_MANY => update_many self model r w
            | PATCH_ONE => patch_one self model r w
            | PATCH_MANY => patch_many self model r w
            | DELETE_ONE => delete_one self model r w
            | _ => delete_many self model r w
            end).2 = (events w ++ rest)%list.
Proof.
  destruct kind; try discriminate; intros _;
    rewrite ?patch_one_run, ?patch_many_run, ?update_one_run, ?update_many_run,
      ?delete_one_run, ?delete_many_run;
    repeat first [case_match | progress cbv zeta];
    cbn [snd events logged counted];
    first [ exists []; rewrite app_nil_r; reflexivity
          | eexists; reflexivity ].
Qed.

(** In blocking mode the order is the intended one: execute, then
    expire-all, then the interpreter. *)
Lemma sync_expire_all_follows_execution kind self model request r w :
  mutating kind = true ->
  async_mode self = false ->
  exists rest,
    events (api_register kind self model request (Executed r) w).2 =
    (events w ++ [EvExecute; EvExpireAll] ++ rest)%list.
Proof.
  intros Hkind Hsync.
  destruct (interpreter_extends_log kind self model r
              (logged w [EvExecute; EvExpireAll]) Hkind) as [rest Hrest].
  exists rest.
  destruct kind; try discriminate; simpl;
    unfold entire_update_by_primary_key, entire_update_many_by_query,
      partial_update_one_by_primary_key, partial_update_many_by_query,
      delete_one_by_primary_key, delete_many_by_query;
    rewrite fetch_expire_run, Hsync; unfold mutation_prefix;
    rewrite Hrest; flatten_log; reflexivity.
Qed.

(** C8 on the code. In suspending mode [session.execute(stmt)] only creates
    the coroutine; [session.expire_all()] runs next, and the statement
    executes when the coroutine is awaited. Every update, patch and delete
    handler therefore invalidates the cached rows before the mutating
    statement has been executed. *)
Theorem async_expire_all_precedes_execution kind self model request db w :
  mutating kind = true ->
  async_mode self = true ->
  exists rest,
    events (api_register kind self model request db w).2 =
    (events w ++ [EvExpireAll; EvExecute] ++ rest)%list.
Proof.
  intros Hkind Hasync.
  destruct db as [r|e].
  - destruct (interpreter_extends_log kind self model r
                (logged w [EvExpireAll; EvExecute]) Hkind) as [rest Hrest].
    exists rest.
    destruct kind; try discriminate; simpl;
      unfold entire_update_by_primary_key, entire_update_many_by_query,
        partial_update_one_by_primary_key, partial_update_many_by_query,
        delete_one_by_primary_key, delete_many_by_query;
      rewrite fetch_expire_run, Hasync; unfold mutation_prefix;
      rewrite Hrest; flatten_log; reflexivity.
  - exists [].
    destruct kind; try discriminate; simpl;
      unfold entire_update_by_primary_key, entire_update_many_by_query,
        partial_update_one_by_primary_key, partial_update_many_by_query,
        delete_one_by_primary_key, delete_many_by_query;
      rewrite fetch_expire_run, Hasync; reflexivity.
Qed.

Lemma async_expire_all_precedes_execution_witness :
  (mutating UPDATE_MANY = true /\ async_mode async_parser = true) /\
  api_register UPDATE_MANY async_parser (MList item_validator) items_request
    (Executed (mkCursor [row_1; row_2] 2)) fresh =
  (Ok (ABody (PList [[("id", VInt 1)]; [("id", VInt 2)]])),
   counted fresh 2 [EvExpireAll; EvExecute; EvSetHeader "x-total-count" "2";
                    EvParse true; EvCommit]) /\
  exists rest,
    events (api_register UPDATE_MANY async_parser (MList item_validator)
              items_request (Executed (mkCursor [row_1; row_2] 2)) fresh).2 =
    (events fresh ++ [EvExpireAll; EvExecute] ++ rest)%list.
Proof.
  split; [split; reflexivity|]. split; [vm_compute; reflexivity|].
  exact (async_expire_all_precedes_execution UPDATE_MANY async_parser
           (MList item_validator) items_request
           (Executed (mkCursor [row_1; row_2] 2)) fresh eq_refl eq_refl).
Defined.

(** * Further properties *)

(** ** Every run of every handler *)

Ltac with_run tac :=
  idtac;
  match goal with
  | |- Run ?self ?kind _ _ _ => tac self kind
  end.

Ltac r_failed := with_run ltac:(fun s k => exact (Run_failed s k _)).
Ltac r_conflict := with_run ltac:(fun s k => exact (Run_conflict s k eq_refl)).
Ltac r_unpack n := with_run ltac:(fun s k => exact (Run_unpack s k n)).
Ltac r_empty_now :=
  with_run ltac:(fun s k => exact (Run_empty s k [] eq_refl (or_introl eq_refl))).
Ltac r_empty_commit :=
  with_run ltac:(fun s k =>
    exact (Run_empty s k (commit_events s) eq_refl (or_intror eq_refl))).
Ltac r_multiple := with_run ltac:(fun s k => exact (Run_multiple s k)).
Ltac r_invalid n := with_run ltac:(fun s k => exact (Run_invalid s k n)).
Ltac r_invalid_counted :=
  with_run ltac:(fun s k => exact (Run_invalid_counted s k _ eq_refl)).
Ltac r_assertion := with_run ltac:(fun s k => exact (Run_assertion s k eq_refl)).
Ltac r_not_registered :=
  with_run ltac:(fun s k => exact (Run_not_registered s k _ eq_refl)).
Ltac r_redirect := with_run ltac:(fun s k => exact (Run_redirect s k _ eq_refl)).

Ltac run_plain ctor :=
  eexists _, None, _; split;
  [cbn [with_header]; flatten_log; reflexivity|ctor].

Ltac run_empty_now :=
  match goal with
  | |- exists res hdr new, _ /\ Run ?self ?kind res hdr new =>
      exists (Ok (AResponse HTTPStatus.NO_CONTENT)), None,
        (session_prefix self kind ++ [])%list;
      split;
      [cbn [with_header]; unfold session_prefix; cbn [mutating];
       rewrite app_nil_r; flatten_log; reflexivity
      |r_empty_now]
  end.

Ltac run_counted ctor :=
  eexists _, (Some _), _; split;
  [cbn [with_header]; flatten_log; reflexivity|ctor].

Ltac run_body p Hcount :=
  match goal with
  | |- exists res hdr new, _ /\ Run ?self ?kind res hdr new =>
      exists (Ok (ABody p)), (Some (entity_count p)),
        (session_prefix self kind ++ transition_steps kind p
         ++ commit_events self)%list;
      split;
      [cbn [with_header]; unfold session_prefix, transition_steps;
       cbn [mutating converts_first]; rewrite Hcount, ?length_map;
       flatten_log; reflexivity
      |apply Run_body; discriminate]
  end.

Lemma Run_failed_async self kind e :
  mutating kind = true -> async_mode self = true ->
  Run self kind (Raise e) None [EvExpireAll; EvExecute].
Proof.
  intros Hk Ha. pose proof (Run_failed self kind e) as R.
  unfold failure_prefix in R. rewrite Hk, Ha in R. exact R.
Qed.

Lemma Run_failed_plain self kind e :
  mutating kind && async_mode self = false ->
  Run self kind (Raise e) None [EvExecute].
Proof.
  intros H. pose proof (Run_failed self kind e) as R.
  unfold failure_prefix in R. rewrite H in R. exact R.
Qed.

Ltac run_guard_failure e :=
  destruct e;
  try (run_plain ltac:(apply Run_failed_plain; reflexivity));
  rewrite conflict_guard_run;
  match goal with
  | |- context [match ?args with _ => _ end] =>
      destruct args as [|? [|? ?]];
      [run_plain ltac:(r_unpack 0)
      |destruct (contains _ _);
       [run_plain ltac:(r_conflict)
       |run_plain ltac:(apply Run_failed_plain; reflexivity)]
      |run_plain ltac:(r_unpack 0)]
  end.

Ltac run_mutating_failure :=
  match goal with
  | |- context [async_mode ?self] =>
      let Ea := fresh "Ea" in
      destruct (async_mode self) eqn:Ea;
      [run_plain ltac:(apply Run_failed_async; [reflexivity|exact Ea])
      |run_plain ltac:(apply Run_failed_plain; rewrite Ea; reflexivity)]
  end.

Lemma scan_routes_fails_in_unpacking end_point routes : forall found w e w',
  scan_routes end_point routes found w = (Raise e, w') -> e = ValueError.
Proof.
  induction routes as [|route routes IH]; intros found w e w'; simpl.
  - discriminate.
  - case_bool_decide; [|apply IH].
    destruct (route_methods route) as [|m [|m' ms]]; unfold unpack_single;
      py_eval; [intros Hrun; unfold raise in Hrun; simplify_eq; reflexivity
               |apply IH
               |intros Hrun; unfold raise in Hrun; simplify_eq; reflexivity].
Qed.

Lemma api_register_Run kind self model request db w :
  exists res hdr new,
    api_register kind self model request db w = (res, with_header hdr w new) /\
    Run self kind res hdr new.
Proof.
  destruct kind; simpl;
    unfold get_one_by_primary_key, get_many, entire_update_by_primary_key,
      entire_update_many_by_query, partial_update_one_by_primary_key,
      partial_update_many_by_query, insert_one_and_support_upsert,
      insert_many_and_support_upsert, delete_one_by_primary_key,
      delete_many_by_query,
      create_one_and_redirect_to_get_one_api_with_primary_key;
    rewrite ?fetch_run, ?fetch_expire_run.
  - (* find-one *)
    destruct db as [r|e]; [|run_plain ltac:(apply Run_failed_plain; reflexivity)].
    rewrite find_one_run.
    destruct (rows r) as [|row [|? ?]].
    + run_plain r_empty_commit.
    + destruct (parse_obj_as _ _) as [p|] eqn:Ep.
      * run_body p (one_count _ _ _ Ep).
      * run_plain ltac:(r_invalid 0).
    + run_plain r_multiple.
  - (* find-many *)
    destruct db as [r|e]; [|run_plain ltac:(apply Run_failed_plain; reflexivity)].
    rewrite find_many_run.
    destruct (parse_obj_as _ _) as [p|] eqn:Ep.
    + run_body p (many_count _ _ _ Ep).
    + run_plain ltac:(r_invalid 0).
  - (* update-one *)
    destruct db as [r|e]; [|run_mutating_failure].
    rewrite update_one_run. destruct (rows r) as [|row rest].
    + run_empty_now.
    + destruct (parse_obj_as _ _) as [p|] eqn:Ep.
      * run_body p (one_count _ _ _ Ep).
      * run_counted r_invalid_counted.
  - (* update-many *)
    destruct db as [r|e]; [|run_mutating_failure].
    rewrite update_many_run. destruct (rows r) as [|row rest] eqn:Er.
    + run_empty_now.
    + cbv zeta. destruct (parse_obj_as _ _) as [p|] eqn:Ep.
      * run_body p (many_count _ _ _ Ep).
      * run_counted r_invalid_counted.
  - (* patch-one *)
    destruct db as [r|e]; [|run_mutating_failure].
    rewrite patch_one_run, update_one_run. destruct (rows r) as [|row rest].
    + run_empty_now.
    + destruct (parse_obj_as _ _) as [p|] eqn:Ep.
      * run_body p (one_count _ _ _ Ep).
      * run_counted r_invalid_counted.
  - (* patch-many *)
    destruct db as [r|e]; [|run_mutating_failure].
    rewrite patch_many_run, update_many_run.
    destruct (rows r) as [|row rest] eqn:Er.
    + run_empty_now.
    + cbv zeta. destruct (parse_obj_as _ _) as [p|] eqn:Ep.
      * run_body p (many_count _ _ _ Ep).
      * run_counted r_invalid_counted.
  - (* upsert-one *)
    unfold bind at 1. rewrite guarded_rows_run.
    destruct db as [r|e]; [|run_guard_failure e].
    destruct (rows r) as [|row [|? ?]]; cbv beta iota;
      [run_plain ltac:(r_unpack 0)| |run_plain ltac:(r_unpack 0)].
    rewrite upsert_one_run. destruct (parse_obj_as _ _) as [p|] eqn:Ep.
    + run_body p (one_count _ _ _ Ep).
    + run_plain ltac:(r_invalid 0).
  - (* upsert-many *)
    unfold bind at 1. rewrite guarded_cursor_run.
    destruct db as [r|e]; [|run_guard_failure e].
    cbv beta iota. rewrite upsert_many_run.
    destruct (parse_obj_as _ _) as [p|] eqn:Ep.
    + run_body p (many_count _ _ _ Ep).
    + run_plain ltac:(r_invalid 0).
  - (* delete-one *)
    destruct db as [r|e]; [|run_mutating_failure].
    rewrite delete_one_run. case_bool_decide; [|run_plain r_empty_commit].
    cbv zeta.
    destruct (mapM _ _) as [ps|] eqn:Emap;
      [|run_plain ltac:(r_invalid (converted_prefix model
                          (map (IKeyDict (primary_name self)) (scalars r))))].
    destruct ps as [|p [|p' ps]];
      [run_plain ltac:(r_unpack (length (map (IKeyDict (primary_name self))
                                           (scalars r))))
      |
      |run_plain ltac:(r_unpack (length (map (IKeyDict (primary_name self))
                                           (scalars r))))].
    pose proof (length_mapM _ _ _ Emap) as Hlen. simpl in Hlen.
    apply mapM_Some in Emap.
    destruct (map _ (scalars r)) as [|i [|i' items]]; simpl in Hlen; try lia.
    inversion Emap as [|? ? ? ? Hp _]; subst.
    run_body p (one_count _ _ _ Hp).
  - (* delete-many *)
    destruct db as [r|e]; [|run_mutating_failure].
    rewrite delete_many_run. case_bool_decide; [|run_plain r_empty_commit].
    cbv zeta. destruct (parse_obj_as _ _) as [p|] eqn:Ep.
    + run_body p (many_count _ _ _ Ep).
    + run_plain ltac:(r_invalid 0).
  - (* create-and-redirect *)
    unfold bind at 1. rewrite guarded_rows_run.
    destruct db as [r|e]; [|run_guard_failure e].
    destruct (rows r) as [|row [|? ?]]; cbv beta iota;
      [run_plain ltac:(r_unpack 0)| |run_plain ltac:(r_unpack 0)].
    rewrite post_redirect_get_run.
    destruct (parse_obj_as _ _) as [p|]; [|run_plain ltac:(r_invalid 0)].
    destruct (pop_attribute _ _); [|run_plain r_assertion].
    destruct (scan_routes_pure (redirect_end_point self request)
                (app_routes request) false
                (logged (logged w [EvExecute]) [EvParse true])) as [res Hres].
    rewrite Hres.
    destruct res as [[|]|e].
    + run_plain r_redirect.
    + run_plain r_not_registered.
    + rewrite (scan_routes_fails_in_unpacking _ _ _ _ _ _ Hres).
      run_plain ltac:(r_unpack 1).
Qed.

(** The same, on the projections of a run. *)
Lemma api_register_Run_proj kind self model request db w :
  exists hdr new,
    (api_register kind self model request db w).2 = with_header hdr w new /\
    Run self kind (api_register kind self model request db w).1 hdr new.
Proof.
  destruct (api_register_Run kind self model request db w)
    as (res & hdr & new & -> & HR).
  exists hdr, new. auto.
Qed.

Lemma events_with_header hdr w new :
  events (with_header hdr w new) = (events w ++ new)%list.
Proof. destruct hdr; reflexivity. Qed.

(** ** Commit and rollback *)

Lemma no_boundary_call_app evs1 evs2 :
  no_boundary_call evs1 -> no_boundary_call evs2 ->
  no_boundary_call (evs1 ++ evs2).
Proof. intros H1 H2. apply Forall_app. auto. Qed.

Lemma no_boundary_call_not_in evs :
  no_boundary_call evs -> (EvCommit ∉ evs) /\ (EvRollback ∉ evs).
Proof.
  unfold no_boundary_call. rewrite Forall_forall. intros Hall.
  split; intros Hin; apply Hall in Hin as [? ?]; congruence.
Qed.

Ltac boundary_free :=
  unfold no_boundary_call;
  repeat first
    [ apply Forall_nil_2
    | apply Forall_cons_2; [split; discriminate|]
    | apply Forall_app; split
    | apply Forall_replicate; split; discriminate ].

Lemma session_prefix_no_boundary self kind :
  no_boundary_call (session_prefix self kind).
Proof.
  unfold session_prefix, mutation_prefix.
  destruct (mutating kind), (async_mode self); boundary_free.
Qed.

Lemma failure_prefix_no_boundary self kind :
  no_boundary_call (failure_prefix self kind).
Proof.
  unfold failure_prefix.
  destruct (mutating kind), (async_mode self); boundary_free.
Qed.

Lemma transition_steps_no_boundary kind p :
  no_boundary_call (transition_steps kind p).
Proof. unfold transition_steps. destruct (converts_first kind); boundary_free. Qed.

(** The log of a run is a stretch without commit or rollback, closed by
    nothing, by the commit step of an answer, or by the rollback of the
    missing read route. *)
Lemma Run_boundary self kind res hdr new :
  Run self kind res hdr new ->
  exists body tail,
    new = (body ++ tail)%list /\ no_boundary_call body /\
    (tail = [] \/
     (tail = commit_events self /\ exists a, res = Ok a) \/
     (tail = [EvRollback] /\ kind = POST_REDIRECT_GET /\
      exists msg, res = Raise (FindOneApiNotRegister 404 msg))).
Proof.
  intros HR. destruct HR.
  - exists (failure_prefix self kind), []. rewrite app_nil_r.
    split; [reflexivity|]. split; [apply failure_prefix_no_boundary|auto].
  - exists [EvExecute], []. split; [reflexivity|]. split; [boundary_free|auto].
  - eexists _, []. rewrite app_nil_r. split; [reflexivity|].
    split; [|auto]. apply no_boundary_call_app;
      [apply session_prefix_no_boundary|boundary_free].
  - exists (session_prefix self kind), tail. split; [reflexivity|].
    split; [apply session_prefix_no_boundary|].
    destruct H0 as [->| ->]; eauto.
  - eexists _, []. rewrite app_nil_r. split; [reflexivity|].
    split; [apply session_prefix_no_boundary|auto].
  - exists (session_prefix self kind ++ transition_steps kind p)%list,
      (commit_events self).
    split; [rewrite app_assoc; reflexivity|].
    split; [|eauto].
    apply no_boundary_call_app;
      [apply session_prefix_no_boundary|apply transition_steps_no_boundary].
  - eexists _, []. rewrite app_nil_r. split; [reflexivity|].
    split; [|auto]. apply no_boundary_call_app;
      [apply session_prefix_no_boundary|boundary_free].
  - eexists _, []. rewrite app_nil_r. split; [reflexivity|].
    split; [|auto]. apply no_boundary_call_app;
      [apply session_prefix_no_boundary|boundary_free].
  - exists [EvExecute; EvParse true], []. split; [reflexivity|].
    split; [boundary_free|auto].
  - exists [EvExecute; EvParse true], [EvRollback]. split; [reflexivity|].
    split; [boundary_free|]. right. right. eauto.
  - exists [EvExecute; EvParse true], (commit_events self).
    split; [reflexivity|]. split; [boundary_free|eauto].
Qed.

(** X1. The commit is the last call of a run and belongs to an answer: a
    run that ends in an exception has not committed, a run with autocommit
    disabled has not committed, and a commit is never followed or preceded
    by another commit or by a rollback. *)
Theorem commit_closes_an_answer kind self model request db w :
  let run := api_register kind self model request db w in
  exists new,
    events run.2 = (events w ++ new)%list /\
    ((exists e, run.1 = Raise e) -> EvCommit ∉ new) /\
    (autocommit self = false -> EvCommit ∉ new) /\
    (EvCommit ∈ new ->
     exists before,
       new = (before ++ [EvCommit])%list /\
       (EvCommit ∉ before) /\ (EvRollback ∉ before)).
Proof.
  cbv zeta.
  destruct (api_register_Run_proj kind self model request db w)
    as (hdr & new & Hw & HR).
  exists new. rewrite Hw, events_with_header. split; [reflexivity|].
  destruct (Run_boundary _ _ _ _ _ HR) as (body & tail & -> & Hbody & Htail).
  destruct (no_boundary_call_not_in _ Hbody) as [Hc Hr].
  unfold commit_events in Htail.
  split; [|split].
  - intros [e He] Hin. apply elem_of_app in Hin as [Hin|Hin]; [contradiction|].
    destruct Htail as [->|[[-> [a Ha]]|[-> _]]].
    + apply elem_of_nil in Hin. assumption.
    + congruence.
    + apply list_elem_of_singleton in Hin. discriminate.
  - intros Hoff Hin. apply elem_of_app in Hin as [Hin|Hin]; [contradiction|].
    destruct Htail as [->|[[-> _]|[-> _]]].
    + apply elem_of_nil in Hin. assumption.
    + rewrite Hoff in Hin. apply elem_of_nil in Hin. assumption.
    + apply list_elem_of_singleton in Hin. discriminate.
  - intros Hin. apply elem_of_app in Hin as [Hin|Hin]; [contradiction|].
    destruct Htail as [->|[[-> _]|[-> _]]].
    + apply elem_of_nil in Hin. contradiction.
    + destruct (autocommit self); [|apply elem_of_nil in Hin; contradiction].
      exists body. auto.
    + apply list_elem_of_singleton in Hin. discriminate.
Qed.

Lemma commit_closes_an_answer_witness :
  let new := [EvExecute; EvParse true; EvSetHeader "x-total-count" "2"; EvCommit] in
  EvCommit ∈ new /\
  exists before,
    new = (before ++ [EvCommit])%list /\
    (EvCommit ∉ before) /\ (EvRollback ∉ before).
Proof.
  intros new0.
  assert (Hin : EvCommit ∈ new0) by (unfold new0;
      repeat first [apply list_elem_of_here|apply list_elem_of_further]).
  split; [exact Hin|].
  destruct (commit_closes_an_answer FIND_MANY sync_parser (MList item_validator)
              items_request
              (Executed (mkCursor [entity_row; entity_row] 2)) fresh)
    as (new & Hnew & _ & _ & Hlast).
  vm_compute in Hnew. subst new. exact (Hlast Hin).
Defined.

(** X2. Only create-and-redirect ever rolls back, and only when it raises
    the missing-read-route error; a run that rolls back has not
    committed. *)
Theorem rollback_only_for_missing_read_route kind self model request db w :
  let run := api_register kind self model request db w in
  exists new,
    events run.2 = (events w ++ new)%list /\
    (EvRollback ∈ new ->
     kind = POST_REDIRECT_GET /\
     (exists msg, run.1 = Raise (FindOneApiNotRegister 404 msg)) /\
     EvCommit ∉ new).
Proof.
  cbv zeta.
  destruct (api_register_Run_proj kind self model request db w)
    as (hdr & new & Hw & HR).
  exists new. rewrite Hw, events_with_header. split; [reflexivity|].
  destruct (Run_boundary _ _ _ _ _ HR) as (body & tail & -> & Hbody & Htail).
  destruct (no_boundary_call_not_in _ Hbody) as [Hc Hr].
  intros Hin. apply elem_of_app in Hin as [Hin|Hin]; [contradiction|].
  destruct Htail as [->|[[-> _]|[-> [-> Hmsg]]]].
  - apply elem_of_nil in Hin. contradiction.
  - unfold commit_events in Hin. destruct (autocommit self).
    + apply list_elem_of_singleton in Hin. discriminate.
    + apply elem_of_nil in Hin. contradiction.
  - split; [reflexivity|]. split; [exact Hmsg|].
    intros Hcommit. apply elem_of_app in Hcommit as [Hcommit|Hcommit];
      [contradiction|].
    apply list_elem_of_singleton in Hcommit. discriminate.
Qed.

Lemma rollback_only_for_missing_read_route_witness :
  let new := [EvExecute; EvParse true; EvRollback] in
  EvRollback ∈ new /\
  (exists msg,
     (api_register POST_REDIRECT_GET sync_parser (MObj item_validator)
        writeonly_request (Executed (mkCursor [row_1] 1)) fresh).1
     = Raise (FindOneApiNotRegister 404 msg)) /\
  EvCommit ∉ new.
Proof.
  intros new0.
  assert (Hin : EvRollback ∈ new0) by (unfold new0;
      repeat first [apply list_elem_of_here|apply list_elem_of_further]).
  split; [exact Hin|].
  destruct (rollback_only_for_missing_read_route POST_REDIRECT_GET sync_parser
              (MObj item_validator) writeonly_request
              (Executed (mkCursor [row_1] 1)) fresh)
    as (new & Hnew & Hroll).
  vm_compute in Hnew. subst new.
  destruct (Hroll Hin) as (_ & Hmsg & Hcommit). auto.
Defined.

Ltac in_list :=
  solve [repeat first [apply list_elem_of_here|apply list_elem_of_further]].

(** ** One statement per request *)

Lemma executions_app evs1 evs2 :
  executions (evs1 ++ evs2) = executions evs1 + executions evs2.
Proof. unfold executions. rewrite List.filter_app, length_app. reflexivity. Qed.

Lemma executions_conversions k : executions (replicate k (EvParse true)) = 0.
Proof. induction k as [|k IH]; [reflexivity|exact IH]. Qed.

Lemma executions_session_prefix self kind :
  executions (session_prefix self kind) = 1.
Proof.
  unfold session_prefix, mutation_prefix.
  destruct (mutating kind), (async_mode self); reflexivity.
Qed.

Lemma executions_commit_events self : executions (commit_events self) = 0.
Proof. unfold commit_events. destruct (autocommit self); reflexivity. Qed.

Lemma executions_transition_steps kind p :
  executions (transition_steps kind p) = 0.
Proof. unfold transition_steps. destruct (converts_first kind); reflexivity. Qed.

Lemma expire_all_in_session_prefix self kind :
  mutating kind = false -> EvExpireAll ∉ session_prefix self kind.
Proof.
  unfold session_prefix. intros ->. intros Hin.
  apply list_elem_of_singleton in Hin. discriminate.
Qed.

(** X3. Whatever the kind, the mode and the outcome, a request executes
    exactly one statement; and the find, upsert and create-and-redirect
    handlers never call expire-all. *)
Theorem one_statement_per_request kind self model request db w :
  let run := api_register kind self model request db w in
  exists new,
    events run.2 = (events w ++ new)%list /\
    executions new = 1 /\
    (mutating kind = false -> EvExpireAll ∉ new).
Proof.
  cbv zeta.
  destruct (api_register_Run_proj kind self model request db w)
    as (hdr & new & Hw & HR).
  exists new. rewrite Hw, events_with_header. split; [reflexivity|].
  split.
  - destruct HR;
      rewrite ?executions_app, ?executions_session_prefix,
        ?executions_conversions, ?executions_commit_events,
        ?executions_transition_steps;
      try reflexivity.
    + unfold failure_prefix.
      destruct (mutating kind && async_mode self); reflexivity.
    + destruct H0 as [->| ->]; rewrite ?executions_commit_events; reflexivity.
  - intros Hk.
    assert (Hpre := expire_all_in_session_prefix self kind Hk).
    assert (Hcommit : EvExpireAll ∉ commit_events self).
    { unfold commit_events. intros Hin. destruct (autocommit self);
        [apply list_elem_of_singleton in Hin; discriminate
        |apply elem_of_nil in Hin; assumption]. }
    assert (Hsteps : forall p, EvExpireAll ∉ transition_steps kind p).
    { intros p Hin. unfold transition_steps in Hin.
      destruct (converts_first kind);
        repeat (apply elem_of_cons in Hin as [Hin|Hin]; [discriminate|]);
        apply elem_of_nil in Hin; assumption. }
    assert (Hconv : forall k, EvExpireAll ∉ replicate k (EvParse true)).
    { intros k Hin. apply elem_of_replicate in Hin as [? _]. discriminate. }
    assert (Hlit : forall evs, evs = [EvExecute] \/ evs = [EvExecute; EvParse true]
                   \/ evs = [EvExecute; EvParse true; EvRollback]
                   \/ evs = [EvParse false]
                   \/ evs = []
                   -> EvExpireAll ∉ evs).
    { intros evs [->|[->|[->|[->| ->]]]] Hin;
        repeat (apply elem_of_cons in Hin as [Hin|Hin]; [discriminate|]);
        apply elem_of_nil in Hin; assumption. }
    destruct HR; intros Hin;
      repeat match goal with
             | H : _ ∈ (_ ++ _)%list |- _ => apply elem_of_app in H as [H|H]
             end;
      try (apply Hpre in Hin; assumption);
      try (apply Hcommit in Hin; assumption);
      try (eapply Hsteps in Hin; assumption);
      try (eapply Hconv in Hin; assumption);
      try (eapply Hlit in Hin; [assumption|solve [auto 10]]);
      try (repeat (apply elem_of_cons in Hin as [Hin|Hin]; [discriminate|]);
           apply elem_of_nil in Hin; assumption).
    + unfold failure_prefix in Hin. rewrite Hk in Hin. cbn [andb] in Hin.
      eapply Hlit in Hin; [assumption|solve [auto 10]].
    + destruct H0 as [->| ->];
        [eapply Hlit in Hin; [assumption|solve [auto 10]]
        |apply Hcommit in Hin; assumption].
Qed.

Lemma one_statement_per_request_witness :
  mutating UPSERT_ONE = false /\
  exists new,
    events (api_register UPSERT_ONE async_parser (MObj item_validator)
              items_request (Executed (mkCursor [row_1] 1)) fresh).2
      = (events fresh ++ new)%list /\
    executions new = 1 /\
    EvExpireAll ∉ new.
Proof.
  split; [reflexivity|].
  destruct (one_statement_per_request UPSERT_ONE async_parser
              (MObj item_validator) items_request
              (Executed (mkCursor [row_1] 1)) fresh)
    as (new & Hnew & Hone & Hexpire).
  exists new. split; [exact Hnew|]. split; [exact Hone|exact (Hexpire eq_refl)].
Defined.

(** ** The header carrier *)

Lemma headers_with_header hdr w new :
  headers (with_header hdr w new) =
  match hdr with
  | Some n => <["x-total-count" := str_nat n]> (headers w)
  | None => headers w
  end.
Proof. destruct hdr; reflexivity. Qed.

(** X4. A request touches no header but [x-total-count]; and an answer
    without a body (204, 409 or the 303 redirect) leaves the header carrier
    exactly as it was. *)
Theorem only_the_count_header_is_written kind self model request db w :
  let run := api_register kind self model request db w in
  delete "x-total-count" (headers run.2) = delete "x-total-count" (headers w) /\
  (forall a, run.1 = Ok a -> artifact_body a = None ->
             headers run.2 = headers w).
Proof.
  cbv zeta.
  destruct (api_register_Run_proj kind self model request db w)
    as (hdr & new & Hw & HR).
  rewrite Hw, headers_with_header. split.
  - destruct hdr; [apply delete_insert_eq|reflexivity].
  - intros a Ha Hbody. destruct HR; try reflexivity; try discriminate.
    simplify_eq.
Qed.

Lemma only_the_count_header_is_written_witness :
  let run := api_register UPSERT_ONE sync_parser (MObj item_validator)
               items_request
               (Failed (IntegrityError
                  ["duplicate key value violates unique constraint"]))
               (mkWorld {["etag" := "7"]} []) in
  (run.1 = Ok (AResponse 409) /\ artifact_body (AResponse 409) = None) /\
  headers run.2 = {["etag" := "7"]}.
Proof.
  intros run.
  assert (Hrun : run.1 = Ok (AResponse 409)) by (vm_compute; reflexivity).
  split; [split; [exact Hrun|reflexivity]|].
  destruct (only_the_count_header_is_written UPSERT_ONE sync_parser
              (MObj item_validator) items_request
              (Failed (IntegrityError
                 ["duplicate key value violates unique constraint"]))
              (mkWorld {["etag" := "7"]} [])) as [_ Hnone].
  exact (Hnone _ Hrun eq_refl).
Defined.

(** X5. A request that ends in an exception leaves the header carrier as it
    was, with one exception: update-one, update-many, patch-one and
    patch-many, whose conversion failed after the count was written. *)
Theorem failed_request_and_the_header kind self model request db w :
  let run := api_register kind self model request db w in
  forall e,
    run.1 = Raise e ->
    headers run.2 = headers w \/
    (converts_first kind = false /\ e = ValidationError /\
     exists n, headers run.2 = <["x-total-count" := str_nat n]> (headers w)).
Proof.
  cbv zeta.
  destruct (api_register_Run_proj kind self model request db w)
    as (hdr & new & Hw & HR).
  rewrite Hw, headers_with_header. intros e He.
  destruct HR; try (left; reflexivity); try discriminate.
  right. simplify_eq. eauto.
Qed.

Lemma failed_request_and_the_header_witness :
  let run := api_register FIND_MANY sync_parser (MList item_validator)
               items_request (Executed (mkCursor [row_1] 1)) fresh in
  run.1 = Raise ValidationError /\
  (headers run.2 = headers fresh \/
   (converts_first FIND_MANY = false /\ ValidationError = ValidationError /\
    exists n, headers run.2 = <["x-total-count" := str_nat n]> (headers fresh))).
Proof.
  intros run.
  assert (Hrun : run.1 = Raise ValidationError) by (vm_compute; reflexivity).
  split; [exact Hrun|].
  exact (failed_request_and_the_header FIND_MANY sync_parser
           (MList item_validator) items_request
           (Executed (mkCursor [row_1] 1)) fresh ValidationError Hrun).
Defined.

(** ** The response vocabulary *)

(** X6. Each kind answers with one of its own status codes only: find-many
    always 200; the other find, update, patch and delete kinds 200 or 204;
    the upsert kinds 201 or 409; create-and-redirect 303 or 409. *)
Theorem status_codes_of_a_kind kind self model request db w :
  forall a,
    (api_register kind self model request db w).1 = Ok a ->
    http_status kind a ∈ status_codes kind.
Proof.
  destruct (api_register_Run_proj kind self model request db w)
    as (hdr & new & _ & HR).
  intros a Ha. destruct HR; try discriminate; simplify_eq; simpl.
  - destruct kind; try discriminate; simpl; in_list.
  - destruct kind; try discriminate; simpl; in_list.
  - destruct kind; try contradiction; simpl; in_list.
  - simpl. in_list.
Qed.

Lemma status_codes_of_a_kind_witness :
  (api_register DELETE_ONE sync_parser (MObj item_validator) items_request
     (Executed (mkCursor [row_1] 0)) fresh).1 = Ok (AResponse 204) /\
  http_status DELETE_ONE (AResponse 204) ∈ status_codes DELETE_ONE.
Proof.
  assert (Hrun : (api_register DELETE_ONE sync_parser (MObj item_validator)
                    items_request (Executed (mkCursor [row_1] 0)) fresh).1
                 = Ok (AResponse 204)) by (vm_compute; reflexivity).
  split; [exact Hrun|].
  exact (status_codes_of_a_kind DELETE_ONE sync_parser (MObj item_validator)
           items_request (Executed (mkCursor [row_1] 0)) fresh _ Hrun).
Defined.

(** ** Failures of the execution *)

(** X7. A failure of the statement is raised again unchanged by every
    handler, except an integrity failure in a conflict-guarded kind; only
    the session calls made up to the failure are logged, the headers are
    untouched. *)
Theorem database_failure_propagates kind self model request e w :
  (conflict_guarded kind = false \/ forall orig_args, e <> IntegrityError orig_args) ->
  api_register kind self model request (Failed e) w =
  (Raise e, logged w (failure_prefix self kind)).
Proof.
  intros Hcase. unfold failure_prefix.
  destruct kind; simpl;
    unfold get_one_by_primary_key, get_many, entire_update_by_primary_key,
      entire_update_many_by_query, partial_update_one_by_primary_key,
      partial_update_many_by_query, insert_one_and_support_upsert,
      insert_many_and_support_upsert, delete_one_by_primary_key,
      delete_many_by_query,
      create_one_and_redirect_to_get_one_api_with_primary_key;
    rewrite ?fetch_run, ?fetch_expire_run; try reflexivity;
    try (destruct (async_mode self); reflexivity);
    unfold bind at 1; rewrite ?guarded_rows_run, ?guarded_cursor_run;
    destruct Hcase as [Hguard|Hother]; try discriminate;
    destruct e; try reflexivity; exfalso; eapply Hother; reflexivity.
Qed.

Lemma database_failure_propagates_witness :
  (conflict_guarded DELETE_MANY = false \/
   forall orig_args, IntegrityError ["foreign key violation"] <> IntegrityError orig_args) /\
  api_register DELETE_MANY async_parser (MList item_validator) items_request
    (Failed (IntegrityError ["foreign key violation"])) fresh =
  (Raise (IntegrityError ["foreign key violation"]),
   logged fresh [EvExpireAll; EvExecute]).
Proof.
  assert (H : conflict_guarded DELETE_MANY = false \/
              forall orig_args,
                IntegrityError ["foreign key violation"] <> IntegrityError orig_args)
    by (left; reflexivity).
  split; [exact H|].
  exact (database_failure_propagates DELETE_MANY async_parser
           (MList item_validator) items_request _ fresh H).
Defined.

(** X8. In the conflict-guarded kinds an integrity failure whose
    [orig.args] does not hold exactly one element is not raised again: the
    unpacking [err_msg, = e.orig.args] raises [ValueError] in its place. *)
Theorem integrity_failure_without_single_message kind self model request orig_args w :
  conflict_guarded kind = true ->
  length orig_args <> 1 ->
  api_register kind self model request (Failed (IntegrityError orig_args)) w =
  (Raise ValueError, logged w [EvExecute]).
Proof.
  intros Hguard Hlen.
  destruct kind; try discriminate; simpl;
    unfold insert_one_and_support_upsert, insert_many_and_support_upsert,
      create_one_and_redirect_to_get_one_api_with_primary_key;
    unfold bind at 1;
    rewrite ?guarded_rows_run, ?guarded_cursor_run, conflict_guard_run;
    destruct orig_args as [|msg [|? ?]]; simpl in Hlen; try lia; reflexivity.
Qed.

Lemma integrity_failure_without_single_message_witness :
  (conflict_guarded UPSERT_MANY = true /\
   length ["duplicate key value violates unique constraint"; "23505"] <> 1) /\
  api_register UPSERT_MANY sync_parser (MList item_validator) items_request
    (Failed (IntegrityError
       ["duplicate key value violates unique constraint"; "23505"])) fresh =
  (Raise ValueError, logged fresh [EvExecute]).
Proof.
  assert (Hlen : length ["duplicate key value violates unique constraint"; "23505"]
                 <> 1) by (simpl; lia).
  split; [split; [reflexivity|exact Hlen]|].
  exact (integrity_failure_without_single_message UPSERT_MANY sync_parser
           (MList item_validator) items_request _ fresh eq_refl Hlen).
Defined.

(** X9. In the conflict-guarded kinds an integrity failure with a single
    message is answered with 409 exactly when the marker occurs somewhere
    inside the message. *)
Theorem conflict_iff_marker_occurs kind self model request msg w :
  conflict_guarded kind = true ->
  (api_register kind self model request (Failed (IntegrityError [msg])) w).1
    = Ok (AResponse 409) <->
  exists before after, msg = before +:+ unique_marker +:+ after.
Proof.
  intros Hguard. rewrite <- contains_spec.
  destruct kind; try discriminate; simpl;
    unfold insert_one_and_support_upsert, insert_many_and_support_upsert,
      create_one_and_redirect_to_get_one_api_with_primary_key;
    unfold bind at 1;
    rewrite ?guarded_rows_run, ?guarded_cursor_run, conflict_guard_run;
    destruct (contains unique_marker msg); simpl; split;
      intros H; try reflexivity; discriminate.
Qed.

Lemma conflict_iff_marker_occurs_witness :
  conflict_guarded POST_REDIRECT_GET = true /\
  ((api_register POST_REDIRECT_GET sync_parser (MObj item_validator)
      items_request
      (Failed (IntegrityError
         ["ERROR: duplicate key value violates unique constraint pk"])) fresh).1
     = Ok (AResponse 409) <->
   exists before after,
     "ERROR: duplicate key value violates unique constraint pk"
     = before +:+ unique_marker +:+ after).
Proof.
  split; [reflexivity|].
  exact (conflict_iff_marker_occurs POST_REDIRECT_GET sync_parser
           (MObj item_validator) items_request _ fresh eq_refl).
Defined.

(** X10. upsert-one and create-and-redirect unpack the cursor into exactly
    one row: a statement that returns no row, or several, ends in
    [ValueError] before any conversion, header or commit. *)
Theorem single_row_expected kind self model request r w :
  kind = UPSERT_ONE \/ kind = POST_REDIRECT_GET ->
  length (rows r) <> 1 ->
  api_register kind self model request (Executed r) w =
  (Raise ValueError, logged w [EvExecute]).
Proof.
  intros [-> | ->] Hlen; simpl;
    unfold insert_one_and_support_upsert,
      create_one_and_redirect_to_get_one_api_with_primary_key;
    unfold bind at 1; rewrite guarded_rows_run;
    destruct (rows r) as [|row [|? ?]]; simpl in Hlen; try lia; reflexivity.
Qed.

Lemma single_row_expected_witness :
  let r := mkCursor [] 0 in
  ((UPSERT_ONE = UPSERT_ONE \/ UPSERT_ONE = POST_REDIRECT_GET) /\
   length (rows r) <> 1) /\
  api_register UPSERT_ONE sync_parser (MObj item_validator) items_request
    (Executed r) fresh = (Raise ValueError, logged fresh [EvExecute]).
Proof.
  intros r.
  assert (Hlen : length (rows r) <> 1) by (simpl; lia).
  split; [split; [left; reflexivity|exact Hlen]|].
  exact (single_row_expected UPSERT_ONE sync_parser (MObj item_validator)
           items_request r fresh (or_introl eq_refl) Hlen).
Defined.

(** X11. When the statement of a singular kind returns several rows,
    find-one raises [MultipleResultsFound] and touches nothing, whereas
    update-one and patch-one answer as if only the first row had come
    back. *)
Theorem singular_kinds_on_several_rows self model first second others count w :
  let r := mkCursor (first :: second :: others) count in
  find_one self model r w = (Raise MultipleResultsFound, w) /\
  update_one self model r w = update_one self model (mkCursor [first] 1) w /\
  patch_one self model r w = patch_one self model (mkCursor [first] 1) w.
Proof.
  cbv zeta. split; [|split; reflexivity].
  rewrite find_one_run. reflexivity.
Qed.

(** ** More on the redirect linker *)

Lemma pop_attribute_None name e :
  pop_attribute name (PObj e) = None <->
  lookup_field name e = None \/ lookup_field name e = Some VNone.
Proof.
  simpl. destruct (lookup_field name e) as [[| |]|]; split;
    intros H; auto; try discriminate; destruct H; discriminate.
Qed.

(** X12. When the converted row has no field named after the primary key,
    or holds [None] there, create-and-redirect fails its assertion right
    after the conversion: the route table is not read, and the session is
    neither committed nor rolled back. *)
Theorem redirect_asserts_primary_key self model row request e w :
  parse_obj_as model (ROne (IRow row)) = Some (PObj e) ->
  lookup_field (primary_name self) e = None \/
  lookup_field (primary_name self) e = Some VNone ->
  post_redirect_get self model row request w =
  (Raise AssertionError, logged w [EvParse true]).
Proof.
  intros Hparse Hkey. apply pop_attribute_None in Hkey.
  rewrite post_redirect_get_run, Hparse, Hkey. reflexivity.
Qed.

Lemma redirect_asserts_primary_key_witness :
  let self := mkParser false "uuid" true in
  let malformed := mkRequest "/items" [mkRoute "/items/{uuid}" []] in
  (parse_obj_as (MObj item_validator) (ROne (IRow row_1))
     = Some (PObj [("id", VInt 1)]) /\
   (lookup_field (primary_name self) [("id", VInt 1)] = None \/
    lookup_field (primary_name self) [("id", VInt 1)] = Some VNone)) /\
  post_redirect_get self (MObj item_validator) row_1 malformed fresh =
  (Raise AssertionError, logged fresh [EvParse true]).
Proof.
  intros self malformed.
  assert (Hkey : lookup_field (primary_name self) [("id", VInt 1)] = None \/
                 lookup_field (primary_name self) [("id", VInt 1)] = Some VNone)
    by (left; reflexivity).
  split; [split; [reflexivity|exact Hkey]|].
  exact (redirect_asserts_primary_key self (MObj item_validator) row_1
           malformed [("id", VInt 1)] fresh eq_refl Hkey).
Defined.

Lemma scan_routes_malformed end_point routes : forall found w,
  Exists (fun route => route_path route = end_point /\
                       length (route_methods route) <> 1) routes ->
  scan_routes end_point routes found w = (Raise ValueError, w).
Proof.
  induction routes as [|route routes IH]; intros found w Hex.
  - inversion Hex.
  - simpl. case_bool_decide as Hpath.
    + destruct (route_methods route) as [|m [|m' ms]] eqn:Em;
        unfold unpack_single; py_eval; try reflexivity.
      apply IH. inversion Hex as [? ? [_ Hlen]|]; subst; [|assumption].
      rewrite Em in Hlen. simpl in Hlen. lia.
    + apply IH. inversion Hex as [? ? [Hp _]|]; subst; [contradiction|assumption].
Qed.

(** X13. If any route bound to the read-by-key end point declares no
    method or several, create-and-redirect ends in the [ValueError] of the
    unpacking, even when a GET route is registered there as well: no
    redirect, no rollback, no commit. *)
Theorem redirect_fails_on_multi_method_route
    self model row request result primary_key_field w :
  parse_obj_as model (ROne (IRow row)) = Some result ->
  pop_attribute (primary_name self) result = Some primary_key_field ->
  Exists (fun route =>
            route_path route = redirect_end_point self request /\
            length (route_methods route) <> 1)
         (app_routes request) ->
  post_redirect_get self model row request w =
  (Raise ValueError, logged w [EvParse true]).
Proof.
  intros Hparse Hkey Hex.
  rewrite post_redirect_get_run, Hparse, Hkey.
  rewrite (scan_routes_malformed _ _ _ _ Hex). reflexivity.
Qed.

Lemma redirect_fails_on_multi_method_route_witness :
  let request := mkRequest "/items"
                   [mkRoute "/items/{id}" ["GET"];
                    mkRoute "/items/{id}" ["GET"; "HEAD"]] in
  (parse_obj_as (MObj item_validator) (ROne (IRow row_1))
     = Some (PObj [("id", VInt 1)]) /\
   pop_attribute (primary_name sync_parser) (PObj [("id", VInt 1)])
     = Some (VInt 1) /\
   get_route_registered (redirect_end_point sync_parser request)
     (app_routes request)) /\
  post_redirect_get sync_parser (MObj item_validator) row_1 request fresh =
  (Raise ValueError, logged fresh [EvParse true]).
Proof.
  intros request.
  assert (Hex : Exists (fun route =>
                          route_path route = redirect_end_point sync_parser request /\
                          length (route_methods route) <> 1)
                       (app_routes request)).
  { apply Exists_cons_tl, Exists_cons_hd. split; [reflexivity|simpl; lia]. }
  split.
  - split; [reflexivity|]. split; [reflexivity|].
    apply is_get_route_at_spec. vm_compute. reflexivity.
  - exact (redirect_fails_on_multi_method_route sync_parser (MObj item_validator)
             row_1 request _ (VInt 1) fresh eq_refl eq_refl Hex).
Defined.

Lemma scan_routes_filter end_point routes : forall found w,
  scan_routes end_point routes found w =
  scan_routes end_point
    (filter (fun route => route_path route = end_point) routes) found w.
Proof.
  induction routes as [|route routes IH]; intros found w; [reflexivity|].
  rewrite filter_cons. simpl. case_bool_decide as Hpath.
  - rewrite decide_True by assumption. simpl.
    rewrite bool_decide_eq_true_2 by assumption.
    destruct (route_methods route) as [|m [|m' ms]]; unfold unpack_single;
      py_eval; try reflexivity. apply IH.
  - rewrite decide_False by assumption. apply IH.
Qed.

(** X14. create-and-redirect looks only at the routes bound to its
    read-by-key end point: routes at any other path, whatever their
    methods, change nothing of its outcome. *)
Theorem redirect_ignores_other_paths self model row path routes w :
  post_redirect_get self model row (mkRequest path routes) w =
  post_redirect_get self model row
    (mkRequest path
       (filter (fun route =>
                  route_path route = redirect_end_point self (mkRequest path routes))
               routes)) w.
Proof.
  rewrite !post_redirect_get_run. cbn [app_routes url_path].
  unfold redirect_end_point at 1 3. cbn [url_path].
  rewrite scan_routes_filter. reflexivity.
Qed.

(** ** The routes the builder registers *)

(** X15. Two operation kinds are registered on the same method and path
    exactly when they are the same kind or both among upsert-one,
    upsert-many and create-and-redirect, which all three are POST on the
    collection path. *)
Theorem routes_coincide_only_for_collection_posts primary_name kind1 kind2 :
  api_route primary_name kind1 = api_route primary_name kind2 <->
  kind1 = kind2 \/
  (posts_to_collection kind1 = true /\ posts_to_collection kind2 = true).
Proof.
  split.
  - destruct kind1, kind2; unfold api_route, item_path; simpl; intros H;
      first [ left; reflexivity
            | right; split; reflexivity
            | discriminate H ].
  - intros [->|[H1 H2]]; [reflexivity|].
    destruct kind1; try discriminate H1; destruct kind2; try discriminate H2;
      reflexivity.
Qed.

Lemma append_cancel prefix : forall a b, prefix +:+ a = prefix +:+ b -> a = b.
Proof.
  induction prefix as [|c prefix IH]; intros a b H; [exact H|].
  simpl in H. injection H as H. apply IH. exact H.
Qed.

Lemma mounted_route_single_method prefix primary_name kinds :
  Forall (fun route => length (route_methods route) = 1)
    (include_router prefix (map (api_route primary_name) kinds)).
Proof.
  unfold include_router. rewrite Forall_forall. intros route Hin.
  apply list_elem_of_In, in_map_iff in Hin as (r0 & <- & Hin).
  apply in_map_iff in Hin as (kind & <- & _). destruct kind; reflexivity.
Qed.

Lemma mounted_get_route_at prefix primary_name kind :
  is_get_route_at (prefix +:+ item_path primary_name)
    (mkRoute (prefix +:+ route_path (api_route primary_name kind))
       (route_methods (api_route primary_name kind))) =
  match kind with FIND_ONE => true | _ => false end.
Proof.
  unfold is_get_route_at. cbn [route_path route_methods].
  destruct kind; cbn [api_route route_path route_methods];
    try (rewrite bool_decide_eq_true_2 by reflexivity; reflexivity);
    rewrite bool_decide_eq_false_2; try reflexivity;
    intros H; apply append_cancel in H; discriminate H.
Qed.

Lemma register_routes_flat primary_name groups :
  register_routes primary_name groups =
  map (api_route primary_name) (concat groups).
Proof.
  unfold register_routes. induction groups as [|g groups IH]; [reflexivity|].
  simpl. rewrite IH, map_app. reflexivity.
Qed.

Lemma mounted_get_route_exists prefix primary_name kinds :
  existsb (is_get_route_at (prefix +:+ item_path primary_name))
    (include_router prefix (map (api_route primary_name) kinds)) = true <->
  FIND_ONE ∈ kinds.
Proof.
  unfold include_router. induction kinds as [|kind kinds IH].
  - simpl. split; [discriminate|]. intros H. apply elem_of_nil in H. contradiction.
  - cbn [map existsb]. rewrite mounted_get_route_at, orb_true_iff, IH,
      elem_of_cons.
    destruct kind; split; intros [H|H]; auto; try discriminate H.
Qed.

Lemma other_paths_no_get_route end_point others :
  Forall (fun route => route_path route <> end_point) others ->
  existsb (is_get_route_at end_point) others = false.
Proof.
  induction 1 as [|route others Hpath _ IH]; [reflexivity|].
  simpl. rewrite IH, orb_false_r. unfold is_get_route_at.
  rewrite bool_decide_eq_false_2 by assumption. reflexivity.
Qed.

(** X16. With the router mounted under the collection path, and no foreign
    route bound to the read-by-key path, create-and-redirect succeeds
    exactly when find-one is among the enabled kinds: then it answers 303
    after the commit step; otherwise it rolls back and raises the
    missing-read-route error. The routes the builder registers never make
    the scan fail, each having one method. *)
Theorem redirect_succeeds_iff_find_one_enabled
    self model row prefix groups others result primary_key_field w :
  parse_obj_as model (ROne (IRow row)) = Some result ->
  pop_attribute (primary_name self) result = Some primary_key_field ->
  Forall (fun route =>
            route_path route <> prefix +:+ item_path (primary_name self))
         others ->
  let request :=
    mkRequest prefix
      (others ++ include_router prefix
                   (register_routes (primary_name self) groups)) in
  (FIND_ONE ∈ concat groups ->
   post_redirect_get self model row request w =
     (Ok (ARedirect (prefix +:+ "/" +:+ str_value primary_key_field)
            HTTPStatus.SEE_OTHER),
      logged w ([EvParse true] ++ commit_events self))) /\
  (FIND_ONE ∉ concat groups ->
   post_redirect_get self model row request w =
     (Raise (FindOneApiNotRegister 404 (not_registered_message self prefix)),
      logged w [EvParse true; EvRollback])).
Proof.
  intros Hparse Hkey Hothers request.
  assert (Hscan : forall w0,
            scan_routes (redirect_end_point self request) (app_routes request)
              false w0 =
            (Ok (existsb (is_get_route_at (prefix +:+ item_path (primary_name self)))
                   (include_router prefix
                      (map (api_route (primary_name self)) (concat groups)))),
             w0)).
  { intros w0. rewrite scan_routes_single_method.
    - cbn [orb]. unfold request. cbn [app_routes].
      rewrite existsb_app, register_routes_flat.
      change (redirect_end_point self
                (mkRequest prefix
                   (others ++ include_router prefix
                      (map (api_route (primary_name self)) (concat groups)))))
        with (prefix +:+ item_path (primary_name self)).
      rewrite (other_paths_no_get_route _ _ Hothers). reflexivity.
    - unfold single_method_at, request. cbn [app_routes].
      rewrite register_routes_flat. apply Forall_app. split.
      + eapply Forall_impl; [exact Hothers|]. intros route Hne Heq.
        exfalso. apply Hne. exact Heq.
      + eapply Forall_impl; [apply mounted_route_single_method|]. auto. }
  rewrite post_redirect_get_run, Hparse, Hkey, Hscan.
  split; intros Hin.
  - apply (mounted_get_route_exists prefix (primary_name self)) in Hin.
    rewrite Hin. flatten_log. reflexivity.
  - destruct (existsb _ _) eqn:Hget.
    + apply mounted_get_route_exists in Hget. contradiction.
    + flatten_log. reflexivity.
Qed.

Lemma redirect_succeeds_iff_find_one_enabled_witness :
  let docs := [mkRoute "/docs" ["GET"; "HEAD"]] in
  let full := [[FIND_MANY; FIND_ONE]; [POST_REDIRECT_GET]] in
  let partial := [[FIND_MANY]; [POST_REDIRECT_GET]; [DELETE_ONE]] in
  (parse_obj_as (MObj item_validator) (ROne (IRow row_1))
     = Some (PObj [("id", VInt 1)]) /\
   pop_attribute (primary_name sync_parser) (PObj [("id", VInt 1)])
     = Some (VInt 1) /\
   Forall (fun route =>
             route_path route <> "/items" +:+ item_path (primary_name sync_parser))
          docs /\
   FIND_ONE ∈ concat full /\ FIND_ONE ∉ concat partial) /\
  post_redirect_get sync_parser (MObj item_validator) row_1
    (mkRequest "/items"
       (docs ++ include_router "/items" (register_routes "id" full))) fresh =
    (Ok (ARedirect "/items/1" 303), logged fresh [EvParse true; EvCommit]) /\
  post_redirect_get sync_parser (MObj item_validator) row_1
    (mkRequest "/items"
       (docs ++ include_router "/items" (register_routes "id" partial))) fresh =
    (Raise (FindOneApiNotRegister 404
              "End Point /items/{'id'} with GET method not found"),
     logged fresh [EvParse true; EvRollback]).
Proof.
  intros docs full partial.
  assert (Hdocs : Forall (fun route =>
                            route_path route
                            <> "/items" +:+ item_path (primary_name sync_parser))
                         docs)
    by (apply Forall_cons_2; [discriminate|apply Forall_nil_2]).
  assert (Hfull : FIND_ONE ∈ concat full)
    by (simpl; repeat first [apply list_elem_of_here|apply list_elem_of_further]).
  assert (Hpartial : FIND_ONE ∉ concat partial).
  { simpl. intros Hin.
    repeat (apply elem_of_cons in Hin as [Hin|Hin]; [discriminate|]).
    apply elem_of_nil in Hin. assumption. }
  split; [repeat split; assumption|].
  destruct (redirect_succeeds_iff_find_one_enabled sync_parser
              (MObj item_validator) row_1 "/items" full docs _ (VInt 1) fresh
              eq_refl eq_refl Hdocs) as [Hyes _].
  destruct (redirect_succeeds_iff_find_one_enabled sync_parser
              (MObj item_validator) row_1 "/items" partial docs _ (VInt 1) fresh
              eq_refl eq_refl Hdocs) as [_ Hno].
  split; [exact (Hyes Hfull)|exact (Hno Hpartial)].
Defined.

(** ** Blocking and suspending mode *)

(** X19. In blocking mode every update, patch and delete handler executes
    the statement first, calls expire-all next and only then interprets the
    result; when the statement fails, the failure is raised at once and
    expire-all is not called. *)
Theorem blocking_mode_expires_after_execution kind self model request db w :
  mutating kind = true ->
  async_mode self = false ->
  match db with
  | Executed r =>
      exists rest,
        events (api_register kind self model request db w).2 =
        (events w ++ [EvExecute; EvExpireAll] ++ rest)%list
  | Failed e =>
      api_register kind self model request db w = (Raise e, logged w [EvExecute])
  end.
Proof.
  intros Hkind Hsync. destruct db as [r|e].
  - apply sync_expire_all_follows_execution; assumption.
  - destruct kind; try discriminate; simpl;
      unfold entire_update_by_primary_key, entire_update_many_by_query,
        partial_update_one_by_primary_key, partial_update_many_by_query,
        delete_one_by_primary_key, delete_many_by_query;
      rewrite fetch_expire_run, Hsync; reflexivity.
Qed.

Lemma blocking_mode_expires_after_execution_witness :
  (mutating PATCH_ONE = true /\ async_mode sync_parser = false) /\
  (exists rest,
     events (api_register PATCH_ONE sync_parser (MObj item_validator)
               items_request (Executed (mkCursor [row_1] 1)) fresh).2 =
     (events fresh ++ [EvExecute; EvExpireAll] ++ rest)%list) /\
  api_register PATCH_ONE sync_parser (MObj item_validator) items_request
    (Failed (OtherError "connection lost")) fresh =
  (Raise (OtherError "connection lost"), logged fresh [EvExecute]).
Proof.
  split; [split; reflexivity|]. split.
  - exact (blocking_mode_expires_after_execution PATCH_ONE sync_parser
             (MObj item_validator) items_request
             (Executed (mkCursor [row_1] 1)) fresh eq_refl eq_refl).
  - exact (blocking_mode_expires_after_execution PATCH_ONE sync_parser
             (MObj item_validator) items_request
             (Failed (OtherError "connection lost")) fresh eq_refl eq_refl).
Defined.

Ltac settle :=
  unfold commit_events; cbn [autocommit primary_name with_header];
  reflexivity.

(** The interpreter of a mutating kind answers the same in both modes and
    from any world, extending the log by the same calls. *)
Lemma mutating_interpreter_uniform kind name auto model r :
  mutating kind = true ->
  exists res hdr rest, forall async w0,
    match kind with
    | UPDATE_ONE => update_one (mkParser async name auto) model r w0
    | UPDATE_MANY => update_many (mkParser async name auto) model r w0
    | PATCH_ONE => patch_one (mkParser async name auto) model r w0
    | PATCH_MANY => patch_many (mkParser async name auto) model r w0
    | DELETE_ONE => delete_one (mkParser async name auto) model r w0
    | _ => delete_many (mkParser async name auto) model r w0
    end = (res, with_header hdr w0 rest).
Proof.
  destruct kind; try discriminate; intros _.
  - destruct (rows r) as [|row rest] eqn:Er.
    + eexists _, None, []; intros async w0.
      rewrite update_one_run, Er. cbn [with_header]. unfold logged.
      rewrite app_nil_r. destruct w0; reflexivity.
    + destruct (parse_obj_as model (ROne (IRow row))) eqn:Ep.
      * eexists _, (Some _), _; intros async w0.
        rewrite update_one_run, Er, Ep. settle.
      * eexists _, (Some _), _; intros async w0.
        rewrite update_one_run, Er, Ep. settle.
  - destruct (rows r) as [|row rest] eqn:Er.
    + eexists _, None, []; intros async w0.
      rewrite update_many_run, Er. cbn [with_header]. unfold logged.
      rewrite app_nil_r. destruct w0; reflexivity.
    + destruct (parse_obj_as model (RMany (map IRow (rows r)))) eqn:Ep.
      * eexists _, (Some _), _; intros async w0.
        rewrite update_many_run, Er. cbv zeta. rewrite <- Er, Ep. settle.
      * eexists _, (Some _), _; intros async w0.
        rewrite update_many_run, Er. cbv zeta. rewrite <- Er, Ep. settle.
  - destruct (rows r) as [|row rest] eqn:Er.
    + eexists _, None, []; intros async w0.
      rewrite patch_one_run, update_one_run, Er. cbn [with_header]. unfold logged.
      rewrite app_nil_r. destruct w0; reflexivity.
    + destruct (parse_obj_as model (ROne (IRow row))) eqn:Ep.
      * eexists _, (Some _), _; intros async w0.
        rewrite patch_one_run, update_one_run, Er, Ep. settle.
      * eexists _, (Some _), _; intros async w0.
        rewrite patch_one_run, update_one_run, Er, Ep. settle.
  - destruct (rows r) as [|row rest] eqn:Er.
    + eexists _, None, []; intros async w0.
      rewrite patch_many_run, update_many_run, Er. cbn [with_header].
      unfold logged. rewrite app_nil_r. destruct w0; reflexivity.
    + destruct (parse_obj_as model (RMany (map IRow (rows r)))) eqn:Ep.
      * eexists _, (Some _), _; intros async w0.
        rewrite patch_many_run, update_many_run, Er. cbv zeta.
        rewrite <- Er, Ep. settle.
      * eexists _, (Some _), _; intros async w0.
        rewrite patch_many_run, update_many_run, Er. cbv zeta.
        rewrite <- Er, Ep. settle.
  - destruct (bool_decide (rowcount r <> 0%Z)) eqn:Ec.
    + destruct (mapM (fun i => parse_obj_as model (ROne i))
                  (map (IKeyDict name) (scalars r))) as [[|p [|p' ps]]|] eqn:Em.
      * eexists _, None, _; intros async w0.
        rewrite delete_one_run, Ec. cbv zeta. cbn [primary_name].
        rewrite Em. settle.
      * eexists _, (Some _), _; intros async w0.
        rewrite delete_one_run, Ec. cbv zeta. cbn [primary_name].
        rewrite Em. settle.
      * eexists _, None, _; intros async w0.
        rewrite delete_one_run, Ec. cbv zeta. cbn [primary_name].
        rewrite Em. settle.
      * eexists _, None, _; intros async w0.
        rewrite delete_one_run, Ec. cbv zeta. cbn [primary_name].
        rewrite Em. settle.
    + eexists _, None, _; intros async w0.
      rewrite delete_one_run, Ec. settle.
  - destruct (bool_decide (rowcount r <> 0%Z)) eqn:Ec.
    + destruct (parse_obj_as model
                  (RMany (map (IKeyDict name) (scalars r)))) eqn:Ep.
      * eexists _, (Some _), _; intros async w0.
        rewrite delete_many_run, Ec. cbv zeta. cbn [primary_name].
        rewrite Ep. settle.
      * eexists _, None, _; intros async w0.
        rewrite delete_many_run, Ec. cbv zeta. cbn [primary_name].
        rewrite Ep. settle.
    + eexists _, None, _; intros async w0.
      rewrite delete_many_run, Ec. settle.
Qed.

Lemma guarded_handler_run kind self model request db w :
  conflict_guarded kind = true ->
  api_register kind self model request db w =
  match db with
  | Executed r =>
      match kind, rows r with
      | UPSERT_MANY, _ => upsert_many self model r (logged w [EvExecute])
      | UPSERT_ONE, [row] => upsert_one self model row (logged w [EvExecute])
      | _, [row] => post_redirect_get self model row request (logged w [EvExecute])
      | _, _ => (Raise ValueError, logged w [EvExecute])
      end
  | Failed (IntegrityError [err_msg]) =>
      if contains unique_marker err_msg
      then (Ok (AResponse HTTPStatus.CONFLICT), logged w [EvExecute])
      else (Raise (IntegrityError [err_msg]), logged w [EvExecute])
  | Failed (IntegrityError _) => (Raise ValueError, logged w [EvExecute])
  | Failed e => (Raise e, logged w [EvExecute])
  end.
Proof.
  destruct kind; try discriminate; intros _; simpl;
    unfold insert_one_and_support_upsert, insert_many_and_support_upsert,
      create_one_and_redirect_to_get_one_api_with_primary_key;
    unfold bind at 1; rewrite ?guarded_rows_run, ?guarded_cursor_run;
    (destruct db as [r|e];
     [try (destruct (rows r) as [|row [|? ?]]); reflexivity|]).
  all: destruct e; try reflexivity; rewrite conflict_guard_run;
    destruct orig_args as [|msg [|? ?]]; try reflexivity;
    destruct (contains unique_marker msg); reflexivity.
Qed.

Lemma read_and_insert_handlers_ignore_mode kind name auto model request db w :
  mutating kind = false ->
  api_register kind (mkParser false name auto) model request db w =
  api_register kind (mkParser true name auto) model request db w.
Proof.
  intros Hk. destruct (conflict_guarded kind) eqn:Hg.
  - rewrite !guarded_handler_run by assumption.
    destruct db as [r|e]; [|reflexivity].
    destruct kind; try discriminate;
      destruct (rows r) as [|row [|? ?]]; try reflexivity;
      rewrite ?upsert_one_run, ?upsert_many_run, ?post_redirect_get_run;
      reflexivity.
  - destruct kind; try discriminate; simpl;
      unfold get_one_by_primary_key, get_many; cbn [async_mode];
      rewrite !fetch_run; (destruct db; [|reflexivity]);
      rewrite ?find_one_run, ?find_many_run; reflexivity.
Qed.

(** X17. The execution mode changes neither the answer nor the headers of
    any request. For the find, upsert and create-and-redirect kinds the
    two modes log the very same calls; for the update, patch and delete
    kinds on an executed statement they log the same calls in a different
    order. *)
Theorem answer_independent_of_mode kind name auto model request db w :
  let blocking := api_register kind (mkParser false name auto) model request db w in
  let suspending := api_register kind (mkParser true name auto) model request db w in
  blocking.1 = suspending.1 /\
  headers blocking.2 = headers suspending.2 /\
  (mutating kind = false -> blocking = suspending) /\
  (forall r, db = Executed r -> events blocking.2 ≡ₚ events suspending.2).
Proof.
  cbv zeta. destruct (mutating kind) eqn:Hk.
  - destruct db as [r|e].
    + destruct (mutating_interpreter_uniform kind name auto model r Hk)
        as (res & hdr & rest & Hrun).
      assert (Hb : api_register kind (mkParser false name auto) model request
                     (Executed r) w
                   = (res, with_header hdr (logged w [EvExecute; EvExpireAll]) rest)).
      { rewrite <- (Hrun false).
        destruct kind; try discriminate; simpl;
          unfold entire_update_by_primary_key, entire_update_many_by_query,
            partial_update_one_by_primary_key, partial_update_many_by_query,
            delete_one_by_primary_key, delete_many_by_query;
          rewrite fetch_expire_run; reflexivity. }
      assert (Hs : api_register kind (mkParser true name auto) model request
                     (Executed r) w
                   = (res, with_header hdr (logged w [EvExpireAll; EvExecute]) rest)).
      { rewrite <- (Hrun true).
        destruct kind; try discriminate; simpl;
          unfold entire_update_by_primary_key, entire_update_many_by_query,
            partial_update_one_by_primary_key, partial_update_many_by_query,
            delete_one_by_primary_key, delete_many_by_query;
          rewrite fetch_expire_run; reflexivity. }
      rewrite Hb, Hs. cbn [fst snd]. split; [reflexivity|].
      split; [rewrite !headers_with_header; reflexivity|].
      split; [discriminate|]. intros _ _.
      rewrite !events_with_header. cbn [events logged].
      apply Permutation_app_tail, Permutation_app_head, perm_swap.
    + assert (Hb : api_register kind (mkParser false name auto) model request
                     (Failed e) w = (Raise e, logged w [EvExecute])).
      { destruct kind; try discriminate; simpl;
          unfold entire_update_by_primary_key, entire_update_many_by_query,
            partial_update_one_by_primary_key, partial_update_many_by_query,
            delete_one_by_primary_key, delete_many_by_query;
          rewrite fetch_expire_run; reflexivity. }
      assert (Hs : api_register kind (mkParser true name auto) model request
                     (Failed e) w = (Raise e, logged w [EvExpireAll; EvExecute])).
      { destruct kind; try discriminate; simpl;
          unfold entire_update_by_primary_key, entire_update_many_by_query,
            partial_update_one_by_primary_key, partial_update_many_by_query,
            delete_one_by_primary_key, delete_many_by_query;
          rewrite fetch_expire_run; reflexivity. }
      rewrite Hb, Hs. cbn [fst snd]. repeat split; try discriminate.
  - rewrite (read_and_insert_handlers_ignore_mode kind name auto model request db w Hk).
    repeat split; reflexivity.
Qed.

Lemma answer_independent_of_mode_witness :
  let db := Executed (mkCursor [row_1; row_2] 2) in
  let blocking := api_register DELETE_MANY (mkParser false "id" true)
                    (MList item_validator) items_request db fresh in
  let suspending := api_register DELETE_MANY (mkParser true "id" true)
                      (MList item_validator) items_request db fresh in
  (mutating FIND_ONE = false /\ db = db) /\
  blocking.1 = suspending.1 /\
  headers blocking.2 = headers suspending.2 /\
  events blocking.2 ≡ₚ events suspending.2 /\
  api_register FIND_ONE (mkParser false "id" true) (MObj item_validator)
    items_request db fresh =
  api_register FIND_ONE (mkParser true "id" true) (MObj item_validator)
    items_request db fresh.
Proof.
  intros db blocking suspending. split; [split; reflexivity|].
  destruct (answer_independent_of_mode DELETE_MANY "id" true
              (MList item_validator) items_request db fresh)
    as (Hres & Hhdr & _ & Hperm).
  destruct (answer_independent_of_mode FIND_ONE "id" true
              (MObj item_validator) items_request db fresh)
    as (_ & _ & Hsame & _).
  split; [exact Hres|]. split; [exact Hhdr|].
  split; [exact (Hperm _ eq_refl)|exact (Hsame eq_refl)].
Defined.

(** ** The arguments of get_many *)

(** X18. get_many hands [limit], [offset] and [order_by_columns] to the
    query service as read from the query, and every other entry of the
    query, unchanged, as filter arguments; the three pagination keys never
    reach the filter arguments. *)
Theorem get_many_arguments_split {V} (query_dict : gmap string V) :
  let args := get_many_arguments query_dict in
  limit args = query_dict !! "limit" /\
  offset args = query_dict !! "offset" /\
  order_by_columns args = query_dict !! "order_by_columns" /\
  forall key,
    filter_args args !! key =
    if bool_decide (key ∈ ["limit"; "offset"; "order_by_columns"])
    then None else query_dict !! key.
Proof.
  cbv zeta. unfold get_many_arguments, dict_pop. cbn.
  split; [reflexivity|].
  split; [apply lookup_delete_ne; discriminate|].
  split; [rewrite !lookup_delete_ne by discriminate; reflexivity|].
  intros key. case_bool_decide as Hkey.
  - apply elem_of_cons in Hkey as [Hk|Hkey];
      [subst key; rewrite !lookup_delete_ne by discriminate;
       apply lookup_delete_eq|].
    apply elem_of_cons in Hkey as [Hk|Hkey];
      [subst key; rewrite lookup_delete_ne by discriminate;
       apply lookup_delete_eq|].
    apply elem_of_cons in Hkey as [Hk|Hkey];
      [subst key; apply lookup_delete_eq|].
    apply elem_of_nil in Hkey. contradiction.
  - rewrite !lookup_delete_ne; [reflexivity| | |];
      intros Hk; subst key; apply Hkey;
      repeat first [apply list_elem_of_here|apply list_elem_of_further].
Qed.
